(** * Finger counting from hand landmarks: the [handDetector] class

    A shallow embedding of [project.ipynb]: the class [handDetector]
    ([__init__], [findHands], [findPosition], [fingersUp], [getHandType])
    and the per-frame body of [main].

    Python lists are [list]s, Python ints are [Z], a raised exception is a
    [Raise] in the [result] monad.  MediaPipe and OpenCV are external: what
    [hands.process] returns for a frame is part of the frame, drawing calls
    are dropped, and the float arithmetic of [int(lm.x * w)] is a parameter.
    What those external calls may raise themselves (a failed camera read, a
    coordinate that is not a number) is outside the model: the statements
    say what the code of the repository does when they return. *)

From Stdlib Require Import ZArith QArith_base String List Lia.
From stdpp Require Import base option list strings gmap.

Local Open Scope Z_scope.

(** ** Exceptions and the error monad *)

Inductive exn := IndexError | AttributeError | TypeError.

Inductive result (A : Type) := Ok (a : A) | Raise (e : exn).
Arguments Ok {A} a.
Arguments Raise {A} e.

#[global] Instance result_ret : MRet result := @Ok.
#[global] Instance result_bind : MBind result :=
  λ A B f m, match m with Ok a => f a | Raise e => Raise e end.


(** ** Python values that reach [fingersUp] as [handType] *)

Definition loc := positive.

Inductive val :=
  | VNone
  | VBool (b : bool)
  | VInt (n : Z)
  | VStr (s : string)
  | VRef (l : loc).

#[global] Instance val_eq_dec : EqDecision val.
Proof. solve_decision. Defined.

(** [v == s] for a string literal [s]: only a [str] with the same
    characters compares equal; [None], numbers and objects whose class
    leaves [__eq__] alone do not. *)
Definition py_eq_str (v : val) (s : string) : bool :=
  match v with
  | VStr s' => bool_decide (s' = s)
  | _ => false
  end.

(** ** List subscripts *)

(** [l[i]] for a Python int [i]: a negative index counts from the end, and
    an index outside [-len(l) .. len(l) - 1] raises [IndexError]. *)
Definition getitem {A} (l : list A) (i : Z) : result A :=
  let n := Z.of_nat (length l) in
  let j := if i <? 0 then i + n else i in
  if (j <? 0) || (n <=? j) then Raise IndexError
  else match l !! Z.to_nat j with
       | Some a => Ok a
       | None => Raise IndexError
       end.

(** [for x in xs: s = body x s], stopping at the first exception. *)
Fixpoint for_each {A S} (xs : list A) (body : A → S → result S) (s : S)
  : result S :=
  match xs with
  | [] => Ok s
  | x :: xs' => s' ← body x s; for_each xs' body s'
  end.

(** [l.count(x)] on a list of ints. *)
Definition py_count (l : list Z) (x : Z) : Z :=
  Z.of_nat (count_occ Z.eq_dec l x).

(** ** What the landmark provider returns *)

Section Detector.

(** The type of Python floats; the model never computes with them. *)
Context {float : Type}.

(** One entry of [hand.landmark]: normalized coordinates. *)
Record NormalizedLandmark := { lm_x : float; lm_y : float }.

(** One entry of [multi_handedness[i].classification]. *)
Record Classification := { label : string }.

(** [hands.process(imgRGB)]: both fields are [None] when no hand is found. *)
Record mp_results := {
  multi_hand_landmarks : option (list (list NormalizedLandmark));
  multi_handedness : option (list (list Classification))
}.

(** Truth value of an optional list: [None] and [[]] are false. *)
Definition truthy_list {A} (o : option (list A)) : bool :=
  match o with
  | Some (_ :: _) => true
  | _ => false
  end.

(** Truth value of what [getHandType] returns: [None] and [""] are false. *)
Definition truthy_label (o : option string) : bool :=
  match o with
  | Some s => negb (bool_decide (s = ""%string))
  | None => false
  end.

Definition label_val (o : option string) : val :=
  match o with
  | Some s => VStr s
  | None => VNone
  end.

(** ** The detector object *)

Record handDetector := {
  mode : bool;
  maxHands : Z;
  detectionCon : float;
  trackCon : float;
  tipIds : list Z;
  results : option mp_results   (* unset until [findHands] runs *)
}.

Definition init (mode : bool) (maxHands : Z) (detectionCon trackCon : float)
  : handDetector :=
  {| mode := mode; maxHands := maxHands;
     detectionCon := detectionCon; trackCon := trackCon;
     tipIds := [4; 8; 12; 16; 20];
     results := None |}.

(** An image is its shape [(h, w)]; the pixels are never read. *)
Record image := { img_h : Z; img_w : Z }.

(** [findHands]: stores the provider's answer [res] for this image in
    [self.results]. *)
Definition findHands (self : handDetector) (res : mp_results) : handDetector :=
  {| mode := mode self; maxHands := maxHands self;
     detectionCon := detectionCon self; trackCon := trackCon self;
     tipIds := tipIds self;
     results := Some res |}.

Definition get_results (self : handDetector) : result mp_results :=
  match results self with
  | Some r => Ok r
  | None => Raise AttributeError
  end.

(** [int(c * dim)]: float product, truncated. *)
Variable to_pixel : float → Z → Z.

(** [enumerate(landmarks)], building [[id, cx, cy]] for each. *)
Fixpoint positions (img : image) (id : Z) (lms : list NormalizedLandmark)
  : list (list Z) :=
  match lms with
  | [] => []
  | lm :: lms' =>
      [id; to_pixel (lm_x lm) (img_w img); to_pixel (lm_y lm) (img_h img)]
        :: positions img (id + 1) lms'
  end.

Definition findPosition (self : handDetector) (img : image) (handNo : Z)
  : result (list (list Z)) :=
  r ← get_results self;
  if truthy_list (multi_hand_landmarks r) then
    myHand ← getitem (default [] (multi_hand_landmarks r)) handNo;
    mret (positions img 0 myHand)
  else mret [].

Definition fingersUp (self : handDetector) (lmList : list (list Z))
    (handType : val) : result (list Z) :=
  let fingers := [] in
  fingers ←
    (if py_eq_str handType "Right" then
       t ← getitem (tipIds self) 0; p ← getitem lmList t; a ← getitem p 1;
       t' ← getitem (tipIds self) 0; q ← getitem lmList (t' - 1);
       b ← getitem q 1;
       mret (fingers ++ [if a <? b then 1 else 0])
     else
       t ← getitem (tipIds self) 0; p ← getitem lmList t; a ← getitem p 1;
       t' ← getitem (tipIds self) 0; q ← getitem lmList (t' - 1);
       b ← getitem q 1;
       mret (fingers ++ [if a >? b then 1 else 0]));
  for_each [1; 2; 3; 4]
    (λ id fingers,
       t ← getitem (tipIds self) id; p ← getitem lmList t; a ← getitem p 2;
       t' ← getitem (tipIds self) id; q ← getitem lmList (t' - 2);
       b ← getitem q 2;
       mret (fingers ++ [if a <? b then 1 else 0]))
    fingers.

Definition getHandType (self : handDetector) (handIndex : Z)
  : result (option string) :=
  r ← get_results self;
  if truthy_list (multi_handedness r) then
    h ← getitem (default [] (multi_handedness r)) handIndex;
    c ← getitem h 0;
    mret (Some (label c))
  else mret None.

(** ** One iteration of the loop of [main] *)

(** The body of [for handIndex, handLms in enumerate(...)]. *)
Definition count_hand (detector : handDetector) (img : image)
    (handIndex : Z) (totalFingers : Z) : result Z :=
  lmList ← findPosition detector img handIndex;
  handType ← getHandType detector handIndex;
  if truthy_label handType then
    fingers ← fingersUp detector lmList (label_val handType);
    mret (totalFingers + py_count fingers 1)
  else mret totalFingers.

(** [range(len(l))] as the indices [enumerate] hands out. *)
Definition indices {A} (l : list A) : list Z :=
  Z.of_nat <$> seq 0 (length l).

(** From [totalFingers = 0] to the number handed to [cv2.putText]; the
    detector already holds the frame's results. *)
Definition count_frame (detector : handDetector) (img : image) : result Z :=
  let totalFingers := 0 in
  r ← get_results detector;
  if truthy_list (multi_hand_landmarks r) then
    for_each (indices (default [] (multi_hand_landmarks r)))
      (count_hand detector img) totalFingers
  else mret totalFingers.

(** A frame: the image read from the camera and what the provider finds
    in it. *)
Record frame := { frame_img : image; frame_hands : mp_results }.

(** The [while True] loop over the frames the camera delivers: the totals
    shown so far, and the exception that ended the loop, if any. *)
Fixpoint main_loop (detector : handDetector) (frames : list frame)
  : list Z * option exn :=
  match frames with
  | [] => ([], None)
  | f :: frames' =>
      let detector := findHands detector (frame_hands f) in
      match count_frame detector (frame_img f) with
      | Ok totalFingers =>
          let '(shown, e) := main_loop detector frames' in
          (totalFingers :: shown, e)
      | Raise e => ([], Some e)
      end
  end.

(** [main]: [handDetector()] takes the defaults of [__init__]; [half] is
    the float 0.5. *)
Definition main (half : float) (frames : list frame) : list Z * option exn :=
  main_loop (init false 2 half half) frames.

End Detector.

Arguments NormalizedLandmark : clear implicits.
Arguments mp_results : clear implicits.
Arguments handDetector : clear implicits.
Arguments frame : clear implicits.


(** ** A [handType] of any class *)

(** What [fingersUp] may be handed as [handType]: a plain value ([None], a
    [bool], an [int], a [str], an object whose class leaves [__eq__]
    alone), or an object of a class with its own [__eq__], given by what
    [obj == s] does in an [if]: answer, or raise. *)
Inductive argument :=
  | Plain (v : val)
  | Custom (eq : string → result bool).

(** [h == s] as the condition of an [if]. *)
Definition py_eq (h : argument) (s : string) : result bool :=
  match h with
  | Plain v => Ok (py_eq_str v s)
  | Custom eq => eq s
  end.

(** [fingersUp] with the comparison [handType == "Right"] left to the
    class of [handType]. *)
Definition fingersUp_any {float} (self : handDetector float)
    (lmList : list (list Z)) (handType : argument) : result (list Z) :=
  let fingers := [] in
  is_right ← py_eq handType "Right";
  fingers ←
    (if is_right : bool then
       t ← getitem (tipIds self) 0; p ← getitem lmList t; a ← getitem p 1;
       t' ← getitem (tipIds self) 0; q ← getitem lmList (t' - 1);
       b ← getitem q 1;
       mret (fingers ++ [if a <? b then 1 else 0])
     else
       t ← getitem (tipIds self) 0; p ← getitem lmList t; a ← getitem p 1;
       t' ← getitem (tipIds self) 0; q ← getitem lmList (t' - 1);
       b ← getitem q 1;
       mret (fingers ++ [if a >? b then 1 else 0]));
  for_each [1; 2; 3; 4]
    (λ id fingers,
       t ← getitem (tipIds self) id; p ← getitem lmList t; a ← getitem p 2;
       t' ← getitem (tipIds self) id; q ← getitem lmList (t' - 2);
       b ← getitem q 2;
       mret (fingers ++ [if a <? b then 1 else 0]))
    fingers.
(** ** Vocabulary of the statements *)

(** The five fingers, in the order of the returned vector. *)
Inductive finger := Thumb | Index | Middle | Ring | Pinky.

Definition fingers_in_order : list finger := [Thumb; Index; Middle; Ring; Pinky].

Definition position (f : finger) : nat :=
  match f with Thumb => 0 | Index => 1 | Middle => 2 | Ring => 3 | Pinky => 4 end.

(** Landmark compared for finger [f]: its tip ... *)
Definition tip (f : finger) : nat :=
  match f with Thumb => 4 | Index => 8 | Middle => 12 | Ring => 16 | Pinky => 20 end.

(** ... and the joint it is compared with. *)
Definition joint (f : finger) : nat :=
  match f with Thumb => 3 | Index => 6 | Middle => 10 | Ring => 14 | Pinky => 18 end.

(** Slot of a landmark entry [[id, cx, cy]] read for finger [f]. *)
Definition axis (f : finger) : nat :=
  match f with Thumb => 1 | _ => 2 end.

Inductive handedness := Left | Right.

Definition hand_label (h : handedness) : string :=
  match h with Left => "Left" | Right => "Right" end.

(** Slot [k] of entry [i] of a landmark list, when there is one. *)
Definition coord (lmList : list (list Z)) (i k : nat) : option Z :=
  p ← lmList !! i; p !! k.

(** A hand observation as [findPosition] builds it: 21 entries
    [[id, cx, cy]]. *)
Definition hand_observation (lmList : list (list Z)) : Prop :=
  length lmList = 21%nat ∧ Forall (λ p, length p = 3%nat) lmList.

(** The detector still has the tip indices [__init__] gave it. *)
Definition constructed {float} (self : handDetector float) : Prop :=
  tipIds self = [4; 8; 12; 16; 20].

(** Entry [k] of [v] is 1 when [P] holds and 0 when it does not. *)
Definition entry_iff (v : list Z) (k : nat) (P : Prop) : Prop :=
  (P → v !! k = Some 1) ∧ (¬ P → v !! k = Some 0).

Definition of_option {A} (o : option A) : result A :=
  match o with Some a => Ok a | None => Raise IndexError end.

(** The rule for one finger, from the words of the specification: the thumb
    compares x, towards the left for a right hand and towards the right for
    a left hand; the other fingers compare y. *)
Definition extended (lmList : list (list Z)) (h : handedness) (f : finger)
  : option Z :=
  t ← coord lmList (tip f) (axis f);
  r ← coord lmList (joint f) (axis f);
  Some (match f, h with
        | Thumb, Right => if bool_decide (t < r) then 1 else 0
        | Thumb, Left => if bool_decide (t > r) then 1 else 0
        | _, _ => if bool_decide (t < r) then 1 else 0
        end).

(** The comparison the thumb branch makes for an arbitrary [handType]. *)
Definition thumb_bit (handType : val) (xt xr : Z) : Z :=
  if py_eq_str handType "Right"
  then (if xt <? xr then 1 else 0)
  else (if xt >? xr then 1 else 0).

Definition finger_bit (yt yr : Z) : Z := if yt <? yr then 1 else 0.

(** The bit [fingersUp] stores for finger [f], given the two coordinates
    it compares. *)
Definition bit_of (handType : val) (f : finger) (t r : Z) : Z :=
  match f with
  | Thumb => thumb_bit handType t r
  | _ => finger_bit t r
  end.


(** ** Vocabulary for frames *)

Definition sumZ (l : list Z) : Z := foldr Z.add 0 l.

(** Number of entries of a finger-state vector that are 1. *)
Definition true_entries (v : list Z) : Z := py_count v 1.

Section FrameVocabulary.

Context {float : Type} (to_pixel : float → Z → Z).

(** The hands the provider found, none when the field is [None]. *)
Definition detected (r : mp_results float)
  : list (list (NormalizedLandmark float)) :=
  default [] (multi_hand_landmarks r).

(** The label the provider gives hand [i], if it gives one. *)
Definition handedness_of (r : mp_results float) (i : nat) : option string :=
  hs ← multi_handedness r; h ← hs !! i; c ← h !! 0%nat; Some (label c).

Fixpoint hands_from (r : mp_results float) (i : nat)
    (hands : list (list (NormalizedLandmark float)))
  : list (list (NormalizedLandmark float) * option string) :=
  match hands with
  | [] => []
  | hand :: hands' => (hand, handedness_of r i) :: hands_from r (S i) hands'
  end.

(** Every detected hand of a frame, with its label. *)
Definition all_hands (r : mp_results float)
  : list (list (NormalizedLandmark float) * option string) :=
  hands_from r 0 (detected r).

(** The detected hands whose label is there and not empty. *)
Definition known_hands (r : mp_results float)
  : list (list (NormalizedLandmark float) * option string) :=
  filter (λ hl, truthy_label hl.2 = true) (all_hands r).

(** What the provider promises: 21 landmarks per hand and, when it
    classifies at all, a non-empty classification for every hand. *)
Definition well_formed (r : mp_results float) : Prop :=
  Forall (λ hand, length hand = 21%nat) (detected r) ∧
  (truthy_list (multi_handedness r) = true →
   ∀ i, (i < length (detected r))%nat →
        ∃ c cs, default [] (multi_handedness r) !! i = Some (c :: cs)).

(** [total] is the number of 1 entries over the finger-state vectors of
    [hands], each classified by [fingersUp] under its own label. *)
Definition sums_vectors (detector : handDetector float) (img : image)
    (hands : list (list (NormalizedLandmark float) * option string))
    (total : result Z) : Prop :=
  ∃ vs, Forall2 (λ hl v, fingersUp detector (positions to_pixel img 0 hl.1)
                           (label_val hl.2) = Ok v) hands vs ∧
        total = Ok (sumZ (true_entries <$> vs)).

End FrameVocabulary.

(** ** [fingersUp] on the object store

    The same method with Python's objects made explicit: lists and the
    detector instance live in a heap and are passed by reference, so that
    what a call leaves behind can be compared with what it found. *)

Module Store.

(** The objects the method can meet: a list of ints ([[id, cx, cy]],
    [tipIds], [fingers]), a list of such lists ([lmList]), an instance with
    its attributes (the detector), and anything else. *)
Inductive obj :=
  | OInts (items : list Z)
  | ORefs (items : list loc)
  | OInst (attrs : gmap string val)
  | OOpaque.

Abbreviation heap := (gmap loc obj).

(** A computation reads and updates the heap and may raise. *)
Definition M (A : Type) : Type := heap → result A * heap.

#[global] Instance M_ret : MRet M := λ A a σ, (Ok a, σ).
#[global] Instance M_bind : MBind M :=
  λ A B f m σ,
    match m σ with
    | (Ok a, σ') => f a σ'
    | (Raise e, σ') => (Raise e, σ')
    end.

(** [[]]: a new list object at an address not in use. *)
Definition new_ints : M loc :=
  λ σ, let l := fresh (dom σ) in (Ok l, <[l := OInts []]> σ).

(** [o.name], expected to hold a reference. *)
Definition getattr_ref (o : loc) (name : string) : M loc :=
  λ σ, match σ !! o with
       | Some (OInst attrs) =>
           match attrs !! name with
           | Some (VRef l) => (Ok l, σ)
           | Some _ => (Raise TypeError, σ)
           | None => (Raise AttributeError, σ)
           end
       | _ => (Raise AttributeError, σ)
       end.

(** [l[i]] on a list of ints. *)
Definition ints_getitem (l : loc) (i : Z) : M Z :=
  λ σ, match σ !! l with
       | Some (OInts items) => (getitem items i, σ)
       | _ => (Raise TypeError, σ)
       end.

(** [l[i]] on a list of lists. *)
Definition refs_getitem (l : loc) (i : Z) : M loc :=
  λ σ, match σ !! l with
       | Some (ORefs items) => (getitem items i, σ)
       | _ => (Raise TypeError, σ)
       end.

(** [l.append(x)]: the list object at [l] changes in place. *)
Definition ints_append (l : loc) (x : Z) : M unit :=
  λ σ, match σ !! l with
       | Some (OInts items) => (Ok tt, <[l := OInts (items ++ [x])]> σ)
       | _ => (Raise AttributeError, σ)
       end.

Fixpoint for_each {A} (xs : list A) (body : A → M unit) : M unit :=
  match xs with
  | [] => mret tt
  | x :: xs' => body x ;; for_each xs' body
  end.

Definition fingersUp (self lmList : loc) (handType : val) : M loc :=
  fingers ← new_ints;
  (if py_eq_str handType "Right" then
     tips ← getattr_ref self "tipIds"; t ← ints_getitem tips 0;
     p ← refs_getitem lmList t; a ← ints_getitem p 1;
     tips' ← getattr_ref self "tipIds"; t' ← ints_getitem tips' 0;
     q ← refs_getitem lmList (t' - 1); b ← ints_getitem q 1;
     ints_append fingers (if a <? b then 1 else 0)
   else
     tips ← getattr_ref self "tipIds"; t ← ints_getitem tips 0;
     p ← refs_getitem lmList t; a ← ints_getitem p 1;
     tips' ← getattr_ref self "tipIds"; t' ← ints_getitem tips' 0;
     q ← refs_getitem lmList (t' - 1); b ← ints_getitem q 1;
     ints_append fingers (if a >? b then 1 else 0));;
  for_each [1; 2; 3; 4]
    (λ id,
       tips ← getattr_ref self "tipIds"; t ← ints_getitem tips id;
       p ← refs_getitem lmList t; a ← ints_getitem p 2;
       tips' ← getattr_ref self "tipIds"; t' ← ints_getitem tips' id;
       q ← refs_getitem lmList (t' - 2); b ← ints_getitem q 2;
       ints_append fingers (if a <? b then 1 else 0));;
  mret fingers.

(** The vector a call returned: the list its result points to. *)
Definition returned (out : result loc * heap) : result (list Z) :=
  match out with
  | (Ok l, σ) =>
      match σ !! l with
      | Some (OInts v) => Ok v
      | _ => Raise TypeError
      end
  | (Raise e, _) => Raise e
  end.

(** [σ] holds the detector [d] at [self] (its [tipIds] as a list object)
    and the landmark list [L] at [lmList] (a list of references to its
    entries). *)
Definition holds {float} (σ : heap) (self lmList : loc)
    (d : handDetector float) (L : list (list Z)) : Prop :=
  ∃ attrs tips ps,
    σ !! self = Some (OInst attrs) ∧
    attrs !! "tipIds"%string = Some (VRef tips) ∧
    σ !! tips = Some (OInts (tipIds d)) ∧
    σ !! lmList = Some (ORefs ps) ∧
    Forall2 (λ p e, σ !! p = Some (OInts e)) ps L.

(** Every object of [σ] is in [σ'], unchanged. *)
Definition untouched (σ σ' : heap) : Prop :=
  ∀ l o, σ !! l = Some o → σ' !! l = Some o.

(** The address the next new object gets. *)
Definition next_loc (σ : heap) : loc := fresh (dom σ).

(** The outcome [out] of a run from [σ] matches the result [pure] of the
    functional model: the same exception, or the new address holding the
    returned vector; and the heap is [σ] plus the new list. *)
Definition run_agrees (σ : heap) (out : result loc * heap)
    (pure : result (list Z)) : Prop :=
  ∃ fv, out = (pure ≫= (λ _, Ok (next_loc σ)),
               <[next_loc σ := OInts fv]> σ) ∧
        ∀ v, pure = Ok v → fv = v.

(** A heap with the detector of [main] at address 1, its [tipIds] at 2,
    the landmark list [L] at 3 and the entries of [L] from 10 on. *)
Definition heap_of (L : list (list Z)) : heap :=
  list_to_map
    ([ (1%positive,
        OInst (list_to_map
                 [ ("mode"%string, VBool false); ("maxHands"%string, VInt 2);
                   ("detectionCon"%string, VRef 4%positive);
                   ("trackCon"%string, VRef 4%positive);
                   ("mpHands"%string, VRef 5%positive); ("hands"%string, VRef 6%positive);
                   ("mpDraw"%string, VRef 7%positive);
                   ("tipIds"%string, VRef 2%positive) ]));
       (2%positive, OInts [4; 8; 12; 16; 20]);
       (3%positive,
        ORefs ((λ i, Pos.of_nat (10 + i)) <$> seq 0 (length L)));
       (4%positive, OOpaque); (5%positive, OOpaque);
       (6%positive, OOpaque); (7%positive, OOpaque) ]
     ++ imap (λ i e, (Pos.of_nat (10 + i), OInts e)) L).

End Store.

(** ** Concrete hands *)

(** Floats that are exact binary fractions, as rationals, and
    [int(c * dim)] on them: the product truncated towards zero. *)
Definition exact_pixel (c : Q) (dim : Z) : Z :=
  (Qnum c * dim) ÷ Zpos (Qden c).

(** The detector [main] builds with [handDetector()]. *)
Definition detector0 : handDetector Q := init false 2 (Qmake 1 2) (Qmake 1 2).

(** The hand of the end-to-end example: thumb tip x=300 against x=250,
    index y 120 against 200, middle 210 against 180, ring 300 against 150,
    pinky 50 against 300. *)
Definition example_hand : list (list Z) :=
  [ [0; 260; 400]; [1; 240; 360]; [2; 245; 320]; [3; 250; 290];
    [4; 300; 270];
    [5; 270; 260]; [6; 272; 200]; [7; 273; 160]; [8; 274; 120];
    [9; 300; 255]; [10; 302; 180]; [11; 303; 200]; [12; 304; 210];
    [13; 330; 260]; [14; 333; 150]; [15; 334; 250]; [16; 335; 300];
    [17; 360; 350]; [18; 362; 300]; [19; 363; 150]; [20; 364; 50] ].

(** A right hand with all five fingers stretched: thumb tip at x=100 left
    of its joint at x=150, every other tip above its joint. *)
Definition open_hand : list (list Z) :=
  [ [0; 260; 400]; [1; 210; 370]; [2; 180; 340]; [3; 150; 310];
    [4; 100; 290];
    [5; 230; 260]; [6; 228; 200]; [7; 227; 160]; [8; 226; 120];
    [9; 260; 255]; [10; 260; 190]; [11; 260; 145]; [12; 260; 100];
    [13; 290; 260]; [14; 292; 200]; [15; 293; 160]; [16; 294; 125];
    [17; 320; 280]; [18; 325; 235]; [19; 328; 200]; [20; 330; 170] ].

(** [open_hand] with landmark 2 moved elsewhere. *)
Definition open_hand_moved : list (list Z) := <[2%nat := [2; 999; 7]]> open_hand.

(** Every landmark on one point: each tip level with its joint. *)
Definition level_hand : list (list Z) :=
  (λ i, [Z.of_nat i; 200; 200]) <$> seq 0 21.

(** An object that answers true to every [==]. *)
Definition agrees_with_all : argument := Custom (λ _, Ok true).

(** An object whose [__eq__] raises. *)
Definition refuses_to_compare : argument := Custom (λ _, Raise TypeError).

(** ** Concrete frames *)

Definition img512 : image := {| img_h := 512; img_w := 512 |}.

(** The landmark the provider reports for pixel [(cx, cy)] of a 512 x 512
    image. *)
Definition landmark_of (p : list Z) : NormalizedLandmark Q :=
  {| lm_x := Qmake (nth 1 p 0) 512; lm_y := Qmake (nth 2 p 0) 512 |}.

(** One open hand, not classified as left or right. *)
Definition unlabelled_results : mp_results Q :=
  {| multi_hand_landmarks := Some [landmark_of <$> open_hand];
     multi_handedness := None |}.

(** Two hands: an open right hand and the example hand, labelled left. *)
Definition two_hands_results : mp_results Q :=
  {| multi_hand_landmarks :=
       Some [landmark_of <$> open_hand; landmark_of <$> example_hand];
     multi_handedness :=
       Some [ [ {| label := "Right" |} ]; [ {| label := "Left" |} ] ] |}.

(** A frame in which the provider finds nothing. *)
Definition no_hands_results : mp_results Q :=
  {| multi_hand_landmarks := None; multi_handedness := None |}.

Definition two_frames : list (frame Q) :=
  [ {| frame_img := img512; frame_hands := two_hands_results |};
    {| frame_img := img512; frame_hands := no_hands_results |} ].

(** ** Moving a hand in the image *)

(** The entry [[id, cx, cy]] of a landmark after the image map
    [x ↦ a * x + dx], [y ↦ b * y + dy]; entries with fewer slots keep
    what they lack. *)
Definition transform (a dx b dy : Z) (p : list Z) : list Z :=
  match p with
  | id :: x :: y :: rest => id :: (a * x + dx) :: (b * y + dy) :: rest
  | [id; x] => [id; a * x + dx]
  | _ => p
  end.

(** Every read [fingersUp] makes finds a value. *)
Definition all_read (lmList : list (list Z)) : Prop :=
  ∀ f, is_Some (coord lmList (tip f) (axis f)) ∧
       is_Some (coord lmList (joint f) (axis f)).

(** The index Python resolves [i] to in a list of length [n]. *)
Definition resolve (n : nat) (i : Z) : option nat :=
  if bool_decide (0 ≤ i < Z.of_nat n) then Some (Z.to_nat i)
  else if bool_decide (- Z.of_nat n ≤ i < 0) then Some (Z.to_nat (i + Z.of_nat n))
  else None.

(** ** More concrete frames *)

(** The open hand under a label in lower case. *)
Definition lowercase_results : mp_results Q :=
  {| multi_hand_landmarks := Some [landmark_of <$> open_hand];
     multi_handedness := Some [ [ {| label := "left" |} ] ] |}.
(** ** Basic facts *)

Lemma getitem_nonneg {A} (l : list A) (i : Z) :
  0 ≤ i → getitem l i = of_option (l !! Z.to_nat i).
Proof.
  intros Hi. unfold getitem.
  destruct (i <? 0) eqn:Hneg; [apply Z.ltb_lt in Hneg; lia|].
  rewrite Hneg. simpl.
  destruct (Z.of_nat (length l) <=? i) eqn:Hlen.
  - apply Z.leb_le in Hlen.
    rewrite (lookup_ge_None_2 l (Z.to_nat i)) by lia. done.
  - destruct (l !! Z.to_nat i); done.
Qed.

Lemma init_constructed {float} (m : bool) (n : Z) (d t : float) :
  constructed (init m n d t).
Proof. reflexivity. Qed.

Lemma findHands_constructed {float} (self : handDetector float) res :
  constructed self → constructed (findHands self res).
Proof. done. Qed.

Lemma hand_observation_coord lmList (i k : nat) :
  hand_observation lmList → (i < 21)%nat → (k < 3)%nat →
  ∃ z, coord lmList i k = Some z.
Proof.
  intros [Hlen Hall] Hi Hk. unfold coord.
  destruct (lookup_lt_is_Some_2 lmList i) as [p Hp]; [lia|].
  rewrite Hp. simpl.
  assert (length p = 3%nat) as Hp3.
  { rewrite Forall_lookup in Hall. by apply (Hall i). }
  destruct (lookup_lt_is_Some_2 p k) as [z Hz]; [lia|]. eauto.
Qed.

Lemma getitem_at {A} (l : list A) (i : Z) (n : nat) :
  i = Z.of_nat n → getitem l i = of_option (l !! n).
Proof. intros ->. rewrite getitem_nonneg by lia. by rewrite Nat2Z.id. Qed.

(** One read [l[i][k]] of the source, on both sides of the goal. *)
Ltac read_entry l i n k m :=
  rewrite (getitem_at l i n) by reflexivity;
  destruct (l !! n) as [?p|] eqn:?;
  cbn [mbind result_bind option_bind of_option];
  [ rewrite (getitem_at _ k m) by reflexivity;
    match goal with
    | |- context [ of_option (?p !! m) ] =>
        destruct (p !! m) as [?a|] eqn:?;
        cbn [mbind result_bind option_bind of_option]; [|reflexivity]
    end
  | reflexivity ].

(** What [fingersUp] computes, as ten reads in the order the code makes
    them. *)
Lemma fingersUp_reads {float} (self : handDetector float) lmList handType :
  constructed self →
  fingersUp self lmList handType =
    (xt ← of_option (coord lmList 4 1); xr ← of_option (coord lmList 3 1);
     y8 ← of_option (coord lmList 8 2); y6 ← of_option (coord lmList 6 2);
     y12 ← of_option (coord lmList 12 2); y10 ← of_option (coord lmList 10 2);
     y16 ← of_option (coord lmList 16 2); y14 ← of_option (coord lmList 14 2);
     y20 ← of_option (coord lmList 20 2); y18 ← of_option (coord lmList 18 2);
     mret [thumb_bit handType xt xr; finger_bit y8 y6; finger_bit y12 y10;
           finger_bit y16 y14; finger_bit y20 y18]).
Proof.
  unfold constructed. intros Hc.
  unfold fingersUp, thumb_bit, finger_bit, coord.
  destruct self as [m n d t tips r]. cbn [tipIds] in *. subst tips.
  cbn [for_each].
  change (getitem [4; 8; 12; 16; 20] 0) with (Ok 4).
  change (getitem [4; 8; 12; 16; 20] 1) with (Ok 8).
  change (getitem [4; 8; 12; 16; 20] 2) with (Ok 12).
  change (getitem [4; 8; 12; 16; 20] 3) with (Ok 16).
  change (getitem [4; 8; 12; 16; 20] 4) with (Ok 20).
  cbn [mbind result_bind].
  destruct (py_eq_str handType "Right").
  all: read_entry lmList 4 4%nat 1 1%nat.
  all: read_entry lmList (4 - 1) 3%nat 1 1%nat.
  all: cbn [mret result_ret app].
  all: read_entry lmList 8 8%nat 2 2%nat.
  all: read_entry lmList (8 - 2) 6%nat 2 2%nat.
  all: cbn [mret result_ret app].
  all: read_entry lmList 12 12%nat 2 2%nat.
  all: read_entry lmList (12 - 2) 10%nat 2 2%nat.
  all: cbn [mret result_ret app].
  all: read_entry lmList 16 16%nat 2 2%nat.
  all: read_entry lmList (16 - 2) 14%nat 2 2%nat.
  all: cbn [mret result_ret app].
  all: read_entry lmList 20 20%nat 2 2%nat.
  all: read_entry lmList (20 - 2) 18%nat 2 2%nat.
  all: reflexivity.
Qed.

(** On a hand observation every read succeeds: the call returns five bits,
    one per finger, each from its own pair of coordinates. *)
Lemma fingersUp_entries {float} (self : handDetector float) lmList handType :
  constructed self → hand_observation lmList →
  ∃ v, fingersUp self lmList handType = Ok v ∧ length v = 5%nat ∧
       ∀ f, ∃ t r,
         coord lmList (tip f) (axis f) = Some t ∧
         coord lmList (joint f) (axis f) = Some r ∧
         v !! position f = Some (bit_of handType f t r).
Proof.
  intros Hc Hobs. rewrite (fingersUp_reads self lmList handType Hc).
  destruct (hand_observation_coord lmList 4 1 Hobs) as [xt Hxt]; [lia..|].
  destruct (hand_observation_coord lmList 3 1 Hobs) as [xr Hxr]; [lia..|].
  destruct (hand_observation_coord lmList 8 2 Hobs) as [y8 Hy8]; [lia..|].
  destruct (hand_observation_coord lmList 6 2 Hobs) as [y6 Hy6]; [lia..|].
  destruct (hand_observation_coord lmList 12 2 Hobs) as [y12 Hy12]; [lia..|].
  destruct (hand_observation_coord lmList 10 2 Hobs) as [y10 Hy10]; [lia..|].
  destruct (hand_observation_coord lmList 16 2 Hobs) as [y16 Hy16]; [lia..|].
  destruct (hand_observation_coord lmList 14 2 Hobs) as [y14 Hy14]; [lia..|].
  destruct (hand_observation_coord lmList 20 2 Hobs) as [y20 Hy20]; [lia..|].
  destruct (hand_observation_coord lmList 18 2 Hobs) as [y18 Hy18]; [lia..|].
  rewrite Hxt, Hxr, Hy8, Hy6, Hy12, Hy10, Hy16, Hy14, Hy20, Hy18.
  eexists. split; [reflexivity|]. split; [reflexivity|].
  intros []; do 2 eexists; (split; [eassumption|]); (split; [eassumption|]);
    reflexivity.
Qed.

Lemma thumb_bit_Right xt xr :
  thumb_bit (VStr "Right") xt xr = if bool_decide (xt < xr) then 1 else 0.
Proof.
  unfold thumb_bit.
  assert (py_eq_str (VStr "Right") "Right" = true) as -> by reflexivity.
  destruct (Z.ltb_spec xt xr); case_bool_decide; lia.
Qed.

Lemma thumb_bit_other handType xt xr :
  handType ≠ VStr "Right" →
  thumb_bit handType xt xr = if bool_decide (xt > xr) then 1 else 0.
Proof.
  intros Hne. unfold thumb_bit.
  assert (py_eq_str handType "Right" = false) as ->.
  { destruct handType; try done. cbn. case_bool_decide; congruence. }
  rewrite Z.gtb_ltb. destruct (Z.ltb_spec xr xt); case_bool_decide; lia.
Qed.

Lemma finger_bit_decide yt yr :
  finger_bit yt yr = if bool_decide (yt < yr) then 1 else 0.
Proof.
  unfold finger_bit. destruct (Z.ltb_spec yt yr); case_bool_decide; lia.
Qed.

Lemma entry_iff_lt (v : list Z) (k : nat) (a b : Z) :
  v !! k = Some (if bool_decide (a < b) then 1 else 0) →
  entry_iff v k (a < b).
Proof.
  intros Hv. unfold entry_iff. rewrite Hv.
  split; intros; case_bool_decide; done.
Qed.

Lemma entry_iff_gt (v : list Z) (k : nat) (a b : Z) :
  v !! k = Some (if bool_decide (a > b) then 1 else 0) →
  entry_iff v k (a > b).
Proof.
  intros Hv. unfold entry_iff. rewrite Hv.
  split; intros; case_bool_decide; done.
Qed.

(** ** The classifier [fingersUp] *)

Section Classifier.

Context {float : Type} (self : handDetector float).
Hypothesis Hself : constructed self.

(** C1. On a 21-landmark hand observation [fingersUp] returns a vector
    whose thumb entry (position 0) is 1 for handedness "Right" exactly when
    the x of landmark 4 is strictly less than the x of landmark 3, and for
    handedness "Left" exactly when it is strictly greater. *)
Theorem fingersUp_thumb_rule (lmList : list (list Z)) :
  hand_observation lmList →
  ∃ xt xr,
    coord lmList 4 1 = Some xt ∧ coord lmList 3 1 = Some xr ∧
    (∃ v, fingersUp self lmList (VStr "Right") = Ok v ∧
          entry_iff v 0 (xt < xr)) ∧
    (∃ v, fingersUp self lmList (VStr "Left") = Ok v ∧
          entry_iff v 0 (xt > xr)).
Proof.
  intros Hobs.
  destruct (fingersUp_entries self lmList (VStr "Right") Hself Hobs)
    as (vr & Hvr & _ & Hr).
  destruct (fingersUp_entries self lmList (VStr "Left") Hself Hobs)
    as (vl & Hvl & _ & Hl).
  destruct (Hr Thumb) as (xt & xr & Hxt & Hxr & Hbit).
  destruct (Hl Thumb) as (xt' & xr' & Hxt' & Hxr' & Hbit').
  cbn [tip joint axis position bit_of] in *.
  rewrite Hxt in Hxt'. rewrite Hxr in Hxr'.
  injection Hxt' as <-. injection Hxr' as <-.
  exists xt, xr. repeat split; try done.
  - exists vr. split; [done|]. apply entry_iff_lt.
    by rewrite <- thumb_bit_Right.
  - exists vl. split; [done|]. apply entry_iff_gt.
    by rewrite <- (thumb_bit_other (VStr "Left")).
Qed.

(** C2. On a 21-landmark hand observation, for either handedness, the
    entry of each finger other than the thumb is 1 exactly when the y of its
    tip (8, 12, 16, 20) is strictly less than the y of its joint
    (6, 10, 14, 18); the handedness plays no part, and when every tip is
    above its joint the four entries are all 1. *)
Theorem fingersUp_other_fingers (lmList : list (list Z)) (h : handedness) :
  hand_observation lmList →
  ∃ v, fingersUp self lmList (VStr (hand_label h)) = Ok v ∧
    (∀ f, f ≠ Thumb →
       ∃ yt yr, coord lmList (tip f) 2 = Some yt ∧
                coord lmList (joint f) 2 = Some yr ∧
                entry_iff v (position f) (yt < yr)) ∧
    (∀ h' v', fingersUp self lmList (VStr (hand_label h')) = Ok v' →
       drop 1 v' = drop 1 v) ∧
    ((∀ f yt yr, f ≠ Thumb → coord lmList (tip f) 2 = Some yt →
        coord lmList (joint f) 2 = Some yr → yt < yr) →
     drop 1 v = [1; 1; 1; 1]).
Proof.
  intros Hobs.
  destruct (fingersUp_entries self lmList (VStr (hand_label h)) Hself Hobs)
    as (v & Hv & Hlen & Hent).
  exists v. split; [done|].
  assert (∀ f, f ≠ Thumb →
            ∃ yt yr, coord lmList (tip f) 2 = Some yt ∧
                     coord lmList (joint f) 2 = Some yr ∧
                     v !! position f
                       = Some (if bool_decide (yt < yr) then 1 else 0))
    as Hbits.
  { intros f Hf. destruct (Hent f) as (yt & yr & Ht & Hr & Hbit).
    exists yt, yr. destruct f; try done;
      cbn [axis bit_of] in *; by rewrite <- finger_bit_decide. }
  split; [|split].
  - intros f Hf. destruct (Hbits f Hf) as (yt & yr & Ht & Hr & Hbit).
    exists yt, yr. repeat split; try done; by apply entry_iff_lt.
  - intros h' v' Hv'.
    destruct (fingersUp_entries self lmList (VStr (hand_label h')) Hself Hobs)
      as (w & Hw & Hlen' & Hent').
    rewrite Hv' in Hw. injection Hw as <-.
    apply list_eq. intros i. rewrite !lookup_drop.
    destruct (decide (i < 4)%nat) as [Hi|Hi].
    + assert (∃ f, f ≠ Thumb ∧ position f = (1 + i)%nat) as (f & Hf & Hpos).
      { destruct i as [|[|[|[|]]]]; [by exists Index | by exists Middle
          | by exists Ring | by exists Pinky | lia]. }
      rewrite <- Hpos.
      destruct (Hent f) as (t & r & Ht & Hr & Hbit).
      destruct (Hent' f) as (t' & r' & Ht' & Hr' & Hbit').
      rewrite Ht in Ht'. rewrite Hr in Hr'.
      injection Ht' as <-. injection Hr' as <-.
      rewrite Hbit, Hbit'. by destruct f.
    + rewrite !lookup_ge_None_2 by lia. done.
  - intros Hup.
    assert (∀ f, f ≠ Thumb → v !! position f = Some 1) as Hone.
    { intros f Hf. destruct (Hbits f Hf) as (yt & yr & Ht & Hr & Hbit).
      rewrite Hbit. rewrite bool_decide_eq_true_2; [done|]. by eapply Hup. }
    pose proof (Hone Index ltac:(done)) as H1.
    pose proof (Hone Middle ltac:(done)) as H2.
    pose proof (Hone Ring ltac:(done)) as H3.
    pose proof (Hone Pinky ltac:(done)) as H4.
    destruct v as [|a [|b [|c [|d [|e [|]]]]]]; try done.
    cbn in *. congruence.
Qed.

(** C5. On a 21-landmark hand observation, whatever the handedness, a
    finger whose tip coordinate equals its joint coordinate (x for the
    thumb, y for the others) gets entry 0. *)
Theorem fingersUp_tie_is_down (lmList : list (list Z)) (handType : val)
    (f : finger) :
  hand_observation lmList →
  coord lmList (tip f) (axis f) = coord lmList (joint f) (axis f) →
  ∃ v, fingersUp self lmList handType = Ok v ∧ v !! position f = Some 0.
Proof.
  intros Hobs Htie.
  destruct (fingersUp_entries self lmList handType Hself Hobs)
    as (v & Hv & _ & Hent).
  exists v. split; [done|].
  destruct (Hent f) as (t & r & Ht & Hr & Hbit).
  rewrite Ht, Hr in Htie. injection Htie as ->.
  rewrite Hbit. f_equal.
  destruct f; cbn [bit_of]; unfold thumb_bit, finger_bit;
    rewrite ?Z.gtb_ltb, ?Z.ltb_irrefl; try done.
  by destruct (py_eq_str handType "Right").
Qed.

(** C6. Whatever [fingersUp] returns has exactly five entries; on a
    21-landmark hand observation with handedness "Left" or "Right" it does
    return, and the entry at each finger's place in the order thumb, index,
    middle, ring, pinky is that finger's state under the rule of the
    specification. *)
Theorem fingersUp_vector_shape :
  (∀ lmList handType v,
     fingersUp self lmList handType = Ok v → length v = 5%nat) ∧
  (∀ lmList h, hand_observation lmList →
     ∃ v, fingersUp self lmList (VStr (hand_label h)) = Ok v ∧
          length v = 5%nat ∧
          Some <$> v = extended lmList h <$> fingers_in_order).
Proof.
  split.
  - intros lmList handType v. rewrite (fingersUp_reads _ _ _ Hself).
    repeat (match goal with
            | |- context [ of_option ?o ] => destruct o; cbn; [|done]
            end).
    by intros [= <-].
  - intros lmList h Hobs.
    destruct (fingersUp_entries self lmList (VStr (hand_label h)) Hself Hobs)
      as (v & Hv & Hlen & Hent).
    exists v. repeat split; try done.
    assert (∀ f, Some <$> v !! position f = Some (extended lmList h f)) as Hx.
    { intros f. destruct (Hent f) as (t & r & Ht & Hr & Hbit).
      rewrite Hbit. cbn. f_equal. unfold extended. rewrite Ht, Hr. cbn.
      f_equal. destruct f, h; cbn [bit_of hand_label];
        rewrite ?thumb_bit_Right, ?finger_bit_decide; try done.
      by rewrite (thumb_bit_other (VStr "Left")). }
    pose proof (Hx Thumb) as H0. pose proof (Hx Index) as H1.
    pose proof (Hx Middle) as H2. pose proof (Hx Ring) as H3.
    pose proof (Hx Pinky) as H4.
    destruct v as [|a [|b [|c [|d [|e [|]]]]]]; try done.
    cbn in *. congruence.
Qed.

(** On a 21-landmark list, a plain value other than the string "Right"
    ([None], "left", a number, ...) gets the left-hand rule. *)
Lemma fingersUp_not_Right (lmList : list (list Z)) (handType : val) :
  hand_observation lmList →
  handType ≠ VStr "Right" →
  ∃ v xt xr,
    fingersUp self lmList handType = Ok v ∧ length v = 5%nat ∧
    coord lmList 4 1 = Some xt ∧ coord lmList 3 1 = Some xr ∧
    entry_iff v 0 (xt > xr) ∧
    fingersUp self lmList (VStr "Left") = Ok v.
Proof.
  intros Hobs Hne.
  destruct (fingersUp_entries self lmList handType Hself Hobs)
    as (v & Hv & Hlen & Hent).
  destruct (Hent Thumb) as (xt & xr & Hxt & Hxr & Hbit).
  cbn [tip joint axis position bit_of] in *.
  exists v, xt, xr. split_and!; try done.
  - apply entry_iff_gt. by rewrite Hbit, thumb_bit_other.
  - rewrite <- Hv. rewrite !(fingersUp_reads _ _ _ Hself).
    unfold thumb_bit.
    assert (py_eq_str handType "Right" = false) as ->.
    { destruct handType; try done. cbn. case_bool_decide; congruence. }
    done.
Qed.

(** C10. [fingersUp] reads nothing but the x of entries 3 and 4 and the y
    of entries 6, 8, 10, 12, 14, 16, 18, 20: two landmark lists that agree
    there give the same outcome for the same [handType], and replacing
    entry 2 of a list changes nothing. *)
Theorem fingersUp_reads_only (handType : val) :
  (∀ l1 l2 : list (list Z),
     (21 ≤ length l1)%nat → (21 ≤ length l2)%nat →
     (∀ f, coord l1 (tip f) (axis f) = coord l2 (tip f) (axis f) ∧
           coord l1 (joint f) (axis f) = coord l2 (joint f) (axis f)) →
     fingersUp self l1 handType = fingersUp self l2 handType) ∧
  (∀ (l : list (list Z)) (e : list Z),
     fingersUp self (<[2%nat := e]> l) handType = fingersUp self l handType).
Proof.
  assert (∀ l1 l2 : list (list Z),
     (∀ f, coord l1 (tip f) (axis f) = coord l2 (tip f) (axis f) ∧
           coord l1 (joint f) (axis f) = coord l2 (joint f) (axis f)) →
     fingersUp self l1 handType = fingersUp self l2 handType) as Hagree.
  { intros l1 l2 Hag. rewrite !(fingersUp_reads _ _ _ Hself).
    destruct (Hag Thumb) as [Ht0 Hj0]. destruct (Hag Index) as [Ht1 Hj1].
    destruct (Hag Middle) as [Ht2 Hj2]. destruct (Hag Ring) as [Ht3 Hj3].
    destruct (Hag Pinky) as [Ht4 Hj4]. cbn [tip joint axis] in *.
    by rewrite Ht0, Hj0, Ht1, Hj1, Ht2, Hj2, Ht3, Hj3, Ht4, Hj4. }
  split.
  - intros l1 l2 _ _. apply Hagree.
  - intros l e. apply Hagree.
    intros f. unfold coord.
    rewrite !list_lookup_insert_ne; [done|by destruct f..].
Qed.

Lemma fingersUp_any_dispatch (lmList : list (list Z))
    (handType : argument) :
  fingersUp_any self lmList handType =
    (is_right ← py_eq handType "Right";
     fingersUp self lmList (if is_right : bool then VStr "Right" else VNone)).
Proof.
  unfold fingersUp_any. destruct (py_eq handType "Right") as [[]|e]; done.
Qed.

Lemma fingersUp_any_Plain (lmList : list (list Z)) (v : val) :
  fingersUp_any self lmList (Plain v) = fingersUp self lmList v.
Proof.
  unfold fingersUp_any, fingersUp. cbn [py_eq mbind result_bind].
  by destruct (py_eq_str v "Right").
Qed.

(** C9, amended. [fingersUp] validates nothing: it only asks whether
    [handType == "Right"]. On a 21-landmark list, every [handType] for
    which that is false (every plain value other than the string "Right":
    [None], "left", a number) gets five entries, the thumb by the left-hand
    rule, the very vector returned for "Left", and no exception. An object
    whose class answers true gets the vector returned for "Right", and an
    exception raised by the comparison leaves [fingersUp]. *)
Theorem fingersUp_any_handType (lmList : list (list Z))
    (handType : argument) :
  hand_observation lmList →
  (py_eq handType "Right" = Ok false →
   ∃ v xt xr,
     fingersUp_any self lmList handType = Ok v ∧ length v = 5%nat ∧
     coord lmList 4 1 = Some xt ∧ coord lmList 3 1 = Some xr ∧
     entry_iff v 0 (xt > xr) ∧
     fingersUp_any self lmList (Plain (VStr "Left")) = Ok v) ∧
  (py_eq handType "Right" = Ok true →
   fingersUp_any self lmList handType
     = fingersUp_any self lmList (Plain (VStr "Right"))) ∧
  (∀ e, py_eq handType "Right" = Raise e →
        fingersUp_any self lmList handType = Raise e) ∧
  (∀ v, v ≠ VStr "Right" → py_eq (Plain v) "Right" = Ok false).
Proof.
  intros Hobs. split_and!.
  - intros Heq.
    destruct (fingersUp_not_Right lmList VNone Hobs ltac:(done))
      as (v & xt & xr & Hv & Hlen & Hxt & Hxr & Hthumb & Hleft).
    exists v, xt, xr. split_and!; try done.
    all: first [ by rewrite fingersUp_any_dispatch, Heq
               | by rewrite fingersUp_any_Plain ].
  - intros Heq. rewrite fingersUp_any_dispatch, Heq.
    by rewrite fingersUp_any_Plain.
  - intros e Heq. by rewrite fingersUp_any_dispatch, Heq.
  - intros v Hv. cbn [py_eq]. f_equal.
    destruct v; try done. cbn. case_bool_decide; congruence.
Qed.

(** C4, amended. On the input of the end-to-end example (thumb tip x=300
    against x=250, handedness "Right"; index y 120 against 200, middle 210
    against 180, ring 300 against 150, pinky 50 against 300) [fingersUp]
    returns [0, 1, 0, 0, 1]: the thumb tip is not left of its joint, so
    the thumb is down, and the hand adds 2 to the count. *)
Theorem fingersUp_example (lmList : list (list Z)) :
  coord lmList 4 1 = Some 300 → coord lmList 3 1 = Some 250 →
  coord lmList 8 2 = Some 120 → coord lmList 6 2 = Some 200 →
  coord lmList 12 2 = Some 210 → coord lmList 10 2 = Some 180 →
  coord lmList 16 2 = Some 300 → coord lmList 14 2 = Some 150 →
  coord lmList 20 2 = Some 50 → coord lmList 18 2 = Some 300 →
  fingersUp self lmList (VStr "Right") = Ok [0; 1; 0; 0; 1] ∧
  true_entries [0; 1; 0; 0; 1] = 2.
Proof.
  intros Hxt Hxr H8 H6 H12 H10 H16 H14 H20 H18.
  rewrite (fingersUp_reads _ _ _ Hself).
  rewrite Hxt, Hxr, H8, H6, H12, H10, H16, H14, H20, H18.
  by split.
Qed.

End Classifier.

(** ** Frames: [findPosition], [getHandType] and the loop of [main] *)

Lemma fingersUp_findHands {float} (self : handDetector float) res lmList h :
  fingersUp (findHands self res) lmList h = fingersUp self lmList h.
Proof. reflexivity. Qed.

Section Frames.

Context {float : Type} (to_pixel : float → Z → Z).

Lemma positions_observation (img : image) (id : Z)
    (hand : list (NormalizedLandmark float)) :
  length hand = 21%nat → hand_observation (positions to_pixel img id hand).
Proof.
  intros Hlen. split.
  - rewrite <- Hlen. clear Hlen. revert id.
    induction hand as [|lm hand IH]; intros id; cbn; [done|].
    by rewrite IH.
  - clear Hlen. revert id.
    induction hand as [|lm hand IH]; intros id; cbn; constructor; auto.
Qed.

Section OneFrame.

Context (detector : handDetector float) (img : image) (r : mp_results float).
Hypothesis Hres : results detector = Some r.

Local Abbreviation hands := (detected r).

Lemma findPosition_hand (i : nat) hand :
  hands !! i = Some hand →
  findPosition to_pixel detector img (Z.of_nat i)
    = Ok (positions to_pixel img 0 hand).
Proof.
  intros Hi. unfold findPosition, get_results. rewrite Hres. cbn.
  unfold detected in *. destruct (multi_hand_landmarks r) as [[|h0 hs]|]; try done.
  cbn [truthy_list default from_option id] in *.
  rewrite (getitem_at _ _ i) by done. by rewrite Hi.
Qed.

Lemma getHandType_hand (i : nat) :
  well_formed r → (i < length hands)%nat →
  getHandType detector (Z.of_nat i) = Ok (handedness_of r i).
Proof.
  intros [_ Hwf] Hi. unfold getHandType, get_results, handedness_of.
  rewrite Hres. cbn.
  destruct (multi_handedness r) as [[|h0 hs]|] eqn:Hh; try done.
  cbn [truthy_list default from_option id] in *.
  destruct (Hwf eq_refl i Hi) as (c & cs & Hc).
  rewrite (getitem_at _ _ i) by done. cbn. rewrite Hc. cbn.
  by rewrite (getitem_at _ 0 0%nat).
Qed.

Lemma count_hand_known (i : nat) hand (total : Z) :
  constructed detector → well_formed r → hands !! i = Some hand →
  if truthy_label (handedness_of r i) then
    ∃ v, fingersUp detector (positions to_pixel img 0 hand)
           (label_val (handedness_of r i)) = Ok v ∧
         count_hand to_pixel detector img (Z.of_nat i) total
           = Ok (total + true_entries v)
  else count_hand to_pixel detector img (Z.of_nat i) total = Ok total.
Proof.
  intros Hc Hwf Hi. unfold count_hand.
  rewrite (findPosition_hand i hand Hi). cbn.
  rewrite (getHandType_hand i Hwf) by (by eapply lookup_lt_Some). cbn.
  destruct (truthy_label (handedness_of r i)); [|done].
  assert (length hand = 21%nat) as Hlen.
  { destruct Hwf as [Hall _]. rewrite Forall_lookup in Hall.
    by apply (Hall i). }
  destruct (fingersUp_entries detector (positions to_pixel img 0 hand)
              (label_val (handedness_of r i)) Hc
              (positions_observation img 0 hand Hlen)) as (v & Hv & _).
  exists v. split; [done|]. by rewrite Hv.
Qed.

(** The loop over the hands from index [i] on adds, to what was counted
    before, the 1 entries of the hands with a known label. *)
Lemma count_hands_from (hs : list (list (NormalizedLandmark float)))
    (i : nat) (total : Z) :
  constructed detector → well_formed r →
  (∀ j hand, hs !! j = Some hand → hands !! (i + j)%nat = Some hand) →
  ∃ vs,
    Forall2 (λ hl v, fingersUp detector (positions to_pixel img 0 hl.1)
                       (label_val hl.2) = Ok v)
      (filter (λ hl, truthy_label hl.2 = true) (hands_from r i hs)) vs ∧
    for_each (Z.of_nat <$> seq i (length hs))
      (count_hand to_pixel detector img) total
      = Ok (total + sumZ (true_entries <$> vs)).
Proof.
  intros Hc Hwf. revert i total.
  induction hs as [|hand hs IH]; intros i total Hsub.
  - exists []. split; [constructor|]. cbn. by rewrite Z.add_0_r.
  - assert (hands !! i = Some hand) as Hi.
    { specialize (Hsub 0%nat hand eq_refl). by rewrite Nat.add_0_r in Hsub. }
    assert (∀ j hand', hs !! j = Some hand' →
              hands !! (S i + j)%nat = Some hand') as Hsub'.
    { intros j hand' Hj. specialize (Hsub (S j) hand' Hj).
      by replace (S i + j)%nat with (i + S j)%nat by lia. }
    pose proof (count_hand_known i hand total Hc Hwf Hi) as Hstep.
    cbn [hands_from length seq fmap list_fmap for_each].
    rewrite filter_cons. cbn [snd].
    destruct (truthy_label (handedness_of r i)) eqn:Hlab.
    + destruct Hstep as (v & Hv & Hstep). rewrite Hstep. cbn.
      destruct (IH (S i) (total + true_entries v) Hsub') as (vs & Hvs & Hrest).
      exists (v :: vs). rewrite decide_True by done. split.
      * by constructor.
      * rewrite Hrest. cbn. by rewrite Z.add_assoc.
    + rewrite Hstep. cbn.
      destruct (IH (S i) total Hsub') as (vs & Hvs & Hrest).
      exists vs. rewrite decide_False by done. by split.
Qed.

Lemma count_frame_no_hands :
  truthy_list (multi_hand_landmarks r) = false →
  count_frame to_pixel detector img = Ok 0.
Proof.
  intros Hno. unfold count_frame, get_results. rewrite Hres. cbn.
  by rewrite Hno.
Qed.

Lemma count_frame_known :
  constructed detector → well_formed r →
  sums_vectors to_pixel detector img (known_hands r)
    (count_frame to_pixel detector img).
Proof.
  intros Hc Hwf. unfold sums_vectors, known_hands, all_hands.
  destruct (truthy_list (multi_hand_landmarks r)) eqn:Htr.
  - destruct (count_hands_from hands 0 0 Hc Hwf) as (vs & Hvs & Hloop);
      [done|].
    exists vs. split; [done|].
    unfold count_frame, get_results. rewrite Hres. cbn. rewrite Htr.
    unfold indices. fold (detected r). by rewrite Hloop.
  - exists []. rewrite count_frame_no_hands by done.
    unfold detected.
    destruct (multi_hand_landmarks r) as [[|h0 hs]|]; try done;
      by split; [constructor|].
Qed.

End OneFrame.
End Frames.

Lemma fingersUp_tipIds {float} (a b : handDetector float) lmList h :
  tipIds a = tipIds b → fingersUp a lmList h = fingersUp b lmList h.
Proof. intros Heq. unfold fingersUp. by rewrite Heq. Qed.

Lemma sums_vectors_tipIds {float} (to_pixel : float → Z → Z)
    (a b : handDetector float) img hands total :
  tipIds a = tipIds b →
  sums_vectors to_pixel a img hands total →
  sums_vectors to_pixel b img hands total.
Proof.
  intros Heq (vs & Hvs & Htot). exists vs. split; [|done].
  eapply Forall2_impl; [exact Hvs|].
  intros hl v Hv. cbn beta in *. by rewrite <- (fingersUp_tipIds a b).
Qed.

(** Every pass of the loop counts its own frame and nothing else. *)
Lemma main_loop_totals {float} (to_pixel : float → Z → Z)
    (detector0 detector : handDetector float) (frames : list (frame float)) :
  constructed detector0 → tipIds detector = tipIds detector0 →
  Forall (λ f, well_formed (frame_hands f)) frames →
  ∃ totals,
    main_loop to_pixel detector frames = (totals, None) ∧
    Forall2 (λ f t, sums_vectors to_pixel detector0 (frame_img f)
                      (known_hands (frame_hands f)) (Ok t))
      frames totals.
Proof.
  intros Hc Htip Hwf. revert detector Htip.
  induction Hwf as [|f frames Hf Hwf IH]; intros detector Htip.
  - exists []. by split; [|constructor].
  - cbn [main_loop].
    set (d := findHands detector (frame_hands f)).
    assert (constructed d) as Hd
      by (apply findHands_constructed; unfold constructed; congruence).
    pose proof (count_frame_known to_pixel d (frame_img f) (frame_hands f)
                  eq_refl Hd Hf) as Hsum.
    destruct Hsum as (vs & Hvs & Htot). rewrite Htot.
    destruct (IH d Htip) as (totals & Hloop & Hall).
    rewrite Hloop. eexists. split; [reflexivity|].
    constructor; [|done].
    apply (sums_vectors_tipIds to_pixel d detector0).
    + exact Htip.
    + by exists vs.
Qed.

Section FrameClaims.

Context {float : Type} (to_pixel : float → Z → Z).
Context (detector : handDetector float).
Hypothesis Hdet : constructed detector.

(** C7, amended. The count of a frame is the number of 1 entries over the
    finger-state vectors of the detected hands that carry a non-empty
    handedness label; a frame without hands counts 0 and raises nothing;
    and every pass of the loop starts from 0, so the number shown for a
    frame is the sum over that frame alone. *)
Theorem count_frame_total :
  (∀ img r, results detector = Some r →
     truthy_list (multi_hand_landmarks r) = false →
     count_frame to_pixel detector img = Ok 0) ∧
  (∀ img r, results detector = Some r → well_formed r →
     sums_vectors to_pixel detector img (known_hands r)
       (count_frame to_pixel detector img)) ∧
  (∀ frames : list (frame float),
     Forall (λ f, well_formed (frame_hands f)) frames →
     ∃ totals,
       main_loop to_pixel detector frames = (totals, None) ∧
       Forall2 (λ f t, sums_vectors to_pixel detector (frame_img f)
                         (known_hands (frame_hands f)) (Ok t))
         frames totals).
Proof.
  split_and!.
  - intros img r Hres Hno. by eapply count_frame_no_hands.
  - intros img r Hres Hwf. by eapply count_frame_known.
  - intros frames Hwf. by apply main_loop_totals.
Qed.


End FrameClaims.

(** ** [fingersUp] on the object store agrees with [fingersUp] *)

Lemma coord_Some (L : list (list Z)) (n m : nat) (e : list Z) :
  L !! n = Some e → coord L n m = e !! m.
Proof. intros H. unfold coord. by rewrite H. Qed.

Lemma coord_None (L : list (list Z)) (n m : nat) :
  L !! n = None → coord L n m = None.
Proof. intros H. unfold coord. by rewrite H. Qed.

Section StoreRun.

Context {float : Type} (d : handDetector float) (L : list (list Z)).
Context (σ : Store.heap) (self lmList : loc).
Context (attrs : gmap string val) (tips : loc) (ps : list loc).
Hypothesis Hd : constructed d.
Hypothesis Hself : σ !! self = Some (Store.OInst attrs).
Hypothesis Hattr : attrs !! "tipIds"%string = Some (VRef tips).
Hypothesis Htips : σ !! tips = Some (Store.OInts (tipIds d)).
Hypothesis Hlm : σ !! lmList = Some (Store.ORefs ps).
Hypothesis Hps : Forall2 (λ p e, σ !! p = Some (Store.OInts e)) ps L.

Local Abbreviation ℓ := (Store.next_loc σ).

Lemma fresh_unused : σ !! ℓ = None.
Proof. apply not_elem_of_dom. unfold Store.next_loc. apply is_fresh. Qed.

Lemma old_lookup (fv : list Z) (l : loc) (o : Store.obj) :
  σ !! l = Some o → (<[ℓ := Store.OInts fv]> σ) !! l = Some o.
Proof.
  intros Hl. rewrite lookup_insert_ne; [done|].
  intros <-. pose proof fresh_unused. congruence.
Qed.

Lemma st_new : Store.new_ints σ = (Ok ℓ, <[ℓ := Store.OInts []]> σ).
Proof. reflexivity. Qed.

Lemma st_tips (fv : list Z) :
  Store.getattr_ref self "tipIds" (<[ℓ := Store.OInts fv]> σ)
    = (Ok tips, <[ℓ := Store.OInts fv]> σ).
Proof.
  unfold Store.getattr_ref. rewrite (old_lookup fv self _ Hself).
  by rewrite Hattr.
Qed.

Lemma st_tip (fv : list Z) (i : Z) :
  Store.ints_getitem tips i (<[ℓ := Store.OInts fv]> σ)
    = (getitem [4; 8; 12; 16; 20] i, <[ℓ := Store.OInts fv]> σ).
Proof.
  unfold Store.ints_getitem. rewrite (old_lookup fv tips _ Htips).
  by rewrite Hd.
Qed.

Lemma st_entry (fv : list Z) (i : Z) (n : nat) :
  i = Z.of_nat n →
  Store.refs_getitem lmList i (<[ℓ := Store.OInts fv]> σ)
    = (of_option (ps !! n), <[ℓ := Store.OInts fv]> σ).
Proof.
  intros ->. unfold Store.refs_getitem. rewrite (old_lookup fv lmList _ Hlm).
  by rewrite (getitem_at _ _ n).
Qed.

Lemma st_slot (fv : list Z) (p : loc) (e : list Z) (k : Z) (m : nat) :
  σ !! p = Some (Store.OInts e) → k = Z.of_nat m →
  Store.ints_getitem p k (<[ℓ := Store.OInts fv]> σ)
    = (of_option (e !! m), <[ℓ := Store.OInts fv]> σ).
Proof.
  intros Hp ->. unfold Store.ints_getitem. rewrite (old_lookup fv p _ Hp).
  by rewrite (getitem_at _ _ m).
Qed.

Lemma st_append (fv : list Z) (x : Z) :
  Store.ints_append ℓ x (<[ℓ := Store.OInts fv]> σ)
    = (Ok tt, <[ℓ := Store.OInts (fv ++ [x])]> σ).
Proof.
  unfold Store.ints_append. rewrite lookup_insert_eq.
  by rewrite insert_insert_eq.
Qed.

Lemma entries_lookup (n : nat) :
  (∃ p e, ps !! n = Some p ∧ L !! n = Some e ∧ σ !! p = Some (Store.OInts e))
  ∨ (ps !! n = None ∧ L !! n = None).
Proof.
  pose proof (proj1 (Forall2_lookup _ ps L) Hps n) as Hn.
  inversion Hn as [p e Hpe Hp He | Hp He]; [left|right]; eauto 10.
Qed.

Lemma run_agrees_raise (fv : list Z) (e : exn) :
  Store.run_agrees σ (Raise e, <[ℓ := Store.OInts fv]> σ) (Raise e).
Proof. exists fv. by split. Qed.

Lemma run_agrees_ok (fv : list Z) :
  Store.run_agrees σ (Ok ℓ, <[ℓ := Store.OInts fv]> σ) (Ok fv).
Proof. exists fv. split; [done|]. by intros v [= <-]. Qed.

(** One read [lmList[i][k]] on the heap, next to the same read of the
    functional model. *)
Ltac st_read n m :=
  rewrite (st_entry _ _ n) by reflexivity;
  let p := fresh "p" in
  let e := fresh "e" in
  let HL := fresh "HL" in
  let Hp := fresh "Hp" in
  destruct (entries_lookup n) as [(p & e & -> & HL & Hp) | [-> HL]];
  [ rewrite (coord_Some L n m _ HL); cbv beta iota delta [of_option];
    rewrite (st_slot _ p e _ m Hp) by reflexivity; clear Hp HL;
    destruct (e !! m) as [?a|]; cbv beta iota delta [of_option];
    [| apply run_agrees_raise ]
  | rewrite (coord_None L n m HL); cbv beta iota delta [of_option];
    apply run_agrees_raise ].

(** [self.tipIds[i]] on the heap. *)
Ltac st_tip :=
  rewrite (st_tips _); cbv beta iota; rewrite (st_tip _);
  try change (getitem [4; 8; 12; 16; 20] 0) with (Ok 4);
  try change (getitem [4; 8; 12; 16; 20] 1) with (Ok 8);
  try change (getitem [4; 8; 12; 16; 20] 2) with (Ok 12);
  try change (getitem [4; 8; 12; 16; 20] 3) with (Ok 16);
  try change (getitem [4; 8; 12; 16; 20] 4) with (Ok 20);
  cbv beta iota.

(** One comparison and its [append]. *)
Ltac st_finger tipn jointn m :=
  st_tip; st_read tipn m; st_tip; st_read jointn m;
  rewrite (st_append _); cbv beta iota.

Lemma fingersUp_run (handType : val) :
  Store.run_agrees σ (Store.fingersUp self lmList handType σ)
    (fingersUp d L handType).
Proof.
  rewrite (fingersUp_reads d L handType Hd).
  unfold Store.fingersUp, thumb_bit, finger_bit.
  cbn [Store.for_each].
  unfold mbind, Store.M_bind, result_bind, mret, Store.M_ret, result_ret.
  rewrite st_new. cbv beta iota.
  destruct (py_eq_str handType "Right").
  all: st_finger 4%nat 3%nat 1%nat.
  all: st_finger 8%nat 6%nat 2%nat.
  all: st_finger 12%nat 10%nat 2%nat.
  all: st_finger 16%nat 14%nat 2%nat.
  all: st_finger 20%nat 18%nat 2%nat.
  all: apply run_agrees_ok.
Qed.

End StoreRun.

Lemma untouched_next (σ : Store.heap) (o : Store.obj) :
  Store.untouched σ (<[Store.next_loc σ := o]> σ).
Proof.
  intros l o' Hl. rewrite lookup_insert_ne; [done|].
  intros <-. pose proof (fresh_unused σ). congruence.
Qed.

Lemma holds_untouched {float} (σ σ' : Store.heap) (self lmList : loc)
    (d : handDetector float) (L : list (list Z)) :
  Store.untouched σ σ' →
  Store.holds σ self lmList d L → Store.holds σ' self lmList d L.
Proof.
  intros Hun (attrs & tips & ps & Hself & Hattr & Htips & Hlm & Hps).
  exists attrs, tips, ps. split_and!; auto.
  eapply Forall2_impl; [exact Hps|]. intros p e Hp. by apply Hun.
Qed.

Lemma returned_agrees (σ : Store.heap) out pure :
  Store.run_agrees σ out pure →
  Store.returned out = pure ∧
  Store.untouched σ out.2 ∧
  (∀ l, out.1 = Ok l → σ !! l = None).
Proof.
  intros (fv & -> & Hfv). split_and!.
  - destruct pure as [v|e]; cbn; [|done].
    rewrite lookup_insert_eq. by rewrite (Hfv v).
  - apply untouched_next.
  - destruct pure as [v|e]; cbn; [|done].
    intros l [= <-]. apply fresh_unused.
Qed.

(** C8. [fingersUp] is a function of the landmark list and the handedness
    alone, and leaves everything as it found it: run on a heap that holds
    the detector and the landmark list, the call changes no object of that
    heap (landmark list, its entries, detector, [tipIds] or any other), its
    vector sits in a list that did not exist before, and it is the vector
    of the functional model; a second call on the same arguments, made on
    the heap the first one left, returns an equal vector. *)
Theorem fingersUp_pure_on_store {float} (d : handDetector float)
    (L : list (list Z)) (σ : Store.heap) (self lmList : loc)
    (handType : val) :
  constructed d → Store.holds σ self lmList d L →
  let out1 := Store.fingersUp self lmList handType σ in
  let out2 := Store.fingersUp self lmList handType out1.2 in
  Store.untouched σ out1.2 ∧ Store.untouched out1.2 out2.2 ∧
  Store.holds out2.2 self lmList d L ∧
  (∀ l, out1.1 = Ok l → σ !! l = None) ∧
  Store.returned out1 = fingersUp d L handType ∧
  Store.returned out2 = Store.returned out1.
Proof.
  intros Hd Hholds out1 out2.
  assert (Store.run_agrees σ out1 (fingersUp d L handType)) as H1.
  { destruct Hholds as (attrs & tips & ps & Hself & Hattr & Htips & Hlm & Hps).
    by eapply fingersUp_run. }
  destruct (returned_agrees _ _ _ H1) as (Hr1 & Hu1 & Hnew1).
  pose proof (holds_untouched _ _ _ _ _ _ Hu1 Hholds) as Hholds1.
  assert (Store.run_agrees out1.2 out2 (fingersUp d L handType)) as H2.
  { destruct Hholds1
      as (attrs & tips & ps & Hself & Hattr & Htips & Hlm & Hps).
    by eapply fingersUp_run. }
  destruct (returned_agrees _ _ _ H2) as (Hr2 & Hu2 & Hnew2).
  split_and!; try done.
  - by eapply holds_untouched.
  - by rewrite Hr1, Hr2.
Qed.

(** ** More on [fingersUp]: when it returns, and what it returns *)

Ltac case_coords :=
  repeat match goal with
         | |- context [ of_option (coord ?l ?i ?k) ] =>
             destruct (coord l i k) eqn:?;
             cbn [of_option mbind result_bind]
         end.

Section ClassifierOutcome.

Context {float : Type} (self : handDetector float).
Hypothesis Hself : constructed self.

(** X1. [fingersUp] returns a vector exactly when each of its ten reads
    finds a value; when one does not, the call raises [IndexError] and
    nothing else. *)
Theorem fingersUp_returns_iff (lmList : list (list Z)) (handType : val) :
  ((∃ v, fingersUp self lmList handType = Ok v) ↔ all_read lmList) ∧
  (∀ e, fingersUp self lmList handType = Raise e → e = IndexError).
Proof.
  rewrite (fingersUp_reads _ _ _ Hself). unfold all_read. split; [split|].
  - intros [v Hv]. revert Hv. case_coords; try done. intros _.
    intros []; cbn [tip joint axis]; split; eauto.
  - intros Hall.
    destruct (Hall Thumb) as [[? Ht0] [? Hj0]].
    destruct (Hall Index) as [[? Ht1] [? Hj1]].
    destruct (Hall Middle) as [[? Ht2] [? Hj2]].
    destruct (Hall Ring) as [[? Ht3] [? Hj3]].
    destruct (Hall Pinky) as [[? Ht4] [? Hj4]].
    cbn [tip joint axis] in *.
    rewrite Ht0, Hj0, Ht1, Hj1, Ht2, Hj2, Ht3, Hj3, Ht4, Hj4. eauto.
  - intros e. case_coords; intros H; by inversion H.
Qed.

(** X2. A landmark list with fewer than 21 entries, such as the empty
    list [findPosition] returns when no hand is found, makes [fingersUp]
    raise [IndexError]. *)
Theorem fingersUp_short_list (lmList : list (list Z)) (handType : val) :
  (length lmList < 21)%nat →
  fingersUp self lmList handType = Raise IndexError.
Proof.
  intros Hlen. rewrite (fingersUp_reads _ _ _ Hself).
  assert (coord lmList 20 2 = None) as H20.
  { apply coord_None. apply lookup_ge_None_2. lia. }
  rewrite H20. case_coords; done.
Qed.

(** X3. Every entry of a returned vector is 0 or 1, so the number a hand
    adds to the count lies between 0 and 5. *)
Theorem fingersUp_bits (lmList : list (list Z)) (handType : val)
    (v : list Z) :
  fingersUp self lmList handType = Ok v →
  Forall (λ b, b = 0 ∨ b = 1) v ∧ 0 ≤ true_entries v ≤ 5.
Proof.
  rewrite (fingersUp_reads _ _ _ Hself). case_coords; try done.
  intros [= <-]. unfold thumb_bit, finger_bit, true_entries, py_count.
  repeat match goal with
         | |- context [ if ?c then _ else _ ] => destruct c
         end;
    (split; [repeat (apply Forall_cons_2; [auto|]); apply Forall_nil_2
            | by vm_compute]).
Qed.

Lemma fingersUp_Ok_length (lmList : list (list Z)) (handType : val)
    (v : list Z) :
  fingersUp self lmList handType = Ok v → length v = 5%nat.
Proof.
  rewrite (fingersUp_reads _ _ _ Hself). case_coords; try done.
  by intros [= <-].
Qed.

(** X4. The two labels disagree on the thumb alone: on the same landmark
    list the vectors for "Right" and "Left" have the same last four
    entries; their thumb entries are both 0 when tip and joint have the
    same x, and otherwise one is 1 and the other 0. *)
Theorem fingersUp_labels_differ_on_thumb (lmList : list (list Z))
    (vr vl : list Z) :
  fingersUp self lmList (VStr "Right") = Ok vr →
  fingersUp self lmList (VStr "Left") = Ok vl →
  ∃ xt xr tr tl rest,
    coord lmList 4 1 = Some xt ∧ coord lmList 3 1 = Some xr ∧
    vr = tr :: rest ∧ vl = tl :: rest ∧
    (xt = xr → tr = 0 ∧ tl = 0) ∧
    (xt ≠ xr → tr + tl = 1) ∧
    true_entries vr - true_entries vl = tr - tl.
Proof.
  rewrite !(fingersUp_reads _ _ _ Hself). case_coords; try done.
  intros [= <-] [= <-]. do 5 eexists. split_and!; try reflexivity.
  - intros ->. unfold thumb_bit. cbn.
    rewrite Z.gtb_ltb, Z.ltb_irrefl. done.
  - intros Hne. rewrite thumb_bit_Right, (thumb_bit_other (VStr "Left")) by done.
    repeat case_bool_decide; lia.
  - rewrite thumb_bit_Right, (thumb_bit_other (VStr "Left")) by done.
    unfold finger_bit.
    repeat match goal with
           | |- context [ ?x <? ?y ] => destruct (x <? y)
           end;
      repeat case_bool_decide; reflexivity.
Qed.

Lemma coord_transform (a dx b dy : Z) (lmList : list (list Z)) (i : nat) :
  coord (transform a dx b dy <$> lmList) i 1
    = (λ x, a * x + dx) <$> coord lmList i 1 ∧
  coord (transform a dx b dy <$> lmList) i 2
    = (λ y, b * y + dy) <$> coord lmList i 2.
Proof.
  unfold coord. rewrite list_lookup_fmap.
  destruct (lmList !! i) as [[|id [|x [|y rest]]]|]; by cbn.
Qed.

(** X5. The vector does not depend on where the hand is in the image nor
    on how large it is drawn: shifting all landmarks and stretching both
    axes by positive factors leaves the outcome as it is. *)
Theorem fingersUp_moved_hand (a dx b dy : Z) (lmList : list (list Z))
    (handType : val) :
  0 < a → 0 < b →
  fingersUp self (transform a dx b dy <$> lmList) handType
    = fingersUp self lmList handType.
Proof.
  intros Ha Hb. rewrite !(fingersUp_reads _ _ _ Hself).
  rewrite !(proj1 (coord_transform a dx b dy lmList _)).
  rewrite !(proj2 (coord_transform a dx b dy lmList _)).
  case_coords; cbn [fmap option_fmap option_map of_option mbind result_bind];
    try done.
  unfold thumb_bit, finger_bit, mret, result_ret. repeat f_equal.
  - destruct (py_eq_str handType "Right"); rewrite ?Z.gtb_ltb;
      repeat match goal with
             | |- context [ ?x <? ?y ] => destruct (Z.ltb_spec x y)
             end; try done; nia.
  - repeat match goal with
           | |- context [ ?x <? ?y ] => destruct (Z.ltb_spec x y)
           end; try done; nia.
  - repeat match goal with
           | |- context [ ?x <? ?y ] => destruct (Z.ltb_spec x y)
           end; try done; nia.
  - repeat match goal with
           | |- context [ ?x <? ?y ] => destruct (Z.ltb_spec x y)
           end; try done; nia.
  - repeat match goal with
           | |- context [ ?x <? ?y ] => destruct (Z.ltb_spec x y)
           end; try done; nia.
Qed.

(** X6. Mirroring the image left to right ([x ↦ a * x + dx] with [a]
    negative, as [x ↦ w - x] does) trades the two labels: the mirrored
    hand read as "Right" gives what the hand gives read as "Left", and
    the other way round. *)
Theorem fingersUp_mirrored_hand (a dx b dy : Z) (lmList : list (list Z)) :
  a < 0 → 0 < b →
  fingersUp self (transform a dx b dy <$> lmList) (VStr "Right")
    = fingersUp self lmList (VStr "Left") ∧
  fingersUp self (transform a dx b dy <$> lmList) (VStr "Left")
    = fingersUp self lmList (VStr "Right").
Proof.
  intros Ha Hb. rewrite !(fingersUp_reads _ _ _ Hself).
  rewrite !(proj1 (coord_transform a dx b dy lmList _)).
  rewrite !(proj2 (coord_transform a dx b dy lmList _)).
  case_coords; cbn [fmap option_fmap option_map of_option mbind result_bind];
    try done.
  rewrite !thumb_bit_Right, !(thumb_bit_other (VStr "Left")) by done.
  rewrite ?finger_bit_decide. unfold mret, result_ret.
  split; repeat f_equal; repeat case_bool_decide; try done; nia.
Qed.

End ClassifierOutcome.

(** ** More on [findPosition] and [getHandType] *)

Lemma getitem_resolve {A} (l : list A) (i : Z) :
  getitem l i = match resolve (length l) i with
                | Some n => of_option (l !! n)
                | None => Raise IndexError
                end.
Proof.
  unfold getitem, resolve.
  destruct (Z.ltb_spec i 0); repeat case_bool_decide; try lia.
  - destruct (Z.ltb_spec (i + Z.of_nat (length l)) 0); [lia|].
    destruct (Z.leb_spec (Z.of_nat (length l)) (i + Z.of_nat (length l)));
      [lia|]. cbn. by destruct (l !! _).
  - destruct (Z.ltb_spec (i + Z.of_nat (length l)) 0); [done|].
    destruct (Z.leb_spec (Z.of_nat (length l)) (i + Z.of_nat (length l)));
      [done|lia].
  - destruct (Z.ltb_spec i 0); [lia|].
    destruct (Z.leb_spec (Z.of_nat (length l)) i); [lia|].
    cbn. by destruct (l !! _).
  - destruct (Z.ltb_spec i 0); [lia|].
    destruct (Z.leb_spec (Z.of_nat (length l)) i); [done|lia].
Qed.

Lemma resolve_lt (n : nat) (i : Z) (k : nat) :
  resolve n i = Some k → (k < n)%nat.
Proof.
  unfold resolve. repeat case_bool_decide; intros [= <-]; lia.
Qed.

Section Lookups.

Context {float : Type} (to_pixel : float → Z → Z).
Context (self : handDetector float) (img : image).

(** X7. What [findPosition] answers: before [findHands] has run it
    raises [AttributeError]; when no hand was found it returns the empty
    list for every [handNo]; otherwise [handNo] picks a hand as a Python
    index does, from the front or, when negative, from the back, and an
    index outside raises [IndexError]. *)
Theorem findPosition_outcome (handNo : Z) :
  (results self = None →
   findPosition to_pixel self img handNo = Raise AttributeError) ∧
  (∀ r, results self = Some r → detected r = [] →
     findPosition to_pixel self img handNo = Ok []) ∧
  (∀ r, results self = Some r → detected r ≠ [] →
     match resolve (length (detected r)) handNo with
     | Some i =>
         ∃ hand, detected r !! i = Some hand ∧
                 findPosition to_pixel self img handNo
                   = Ok (positions to_pixel img 0 hand)
     | None => findPosition to_pixel self img handNo = Raise IndexError
     end).
Proof.
  unfold findPosition, get_results, detected. split_and!.
  - by intros ->.
  - intros r -> Hno. cbn.
    by destruct (multi_hand_landmarks r) as [[|h0 hs]|].
  - intros r -> Hsome. cbn.
    destruct (multi_hand_landmarks r) as [[|h0 hs]|]; try done.
    cbn [truthy_list default from_option id].
    rewrite getitem_resolve.
    destruct (resolve (length (h0 :: hs)) handNo) as [i|] eqn:Hi; [|done].
    destruct (lookup_lt_is_Some_2 (h0 :: hs) i (resolve_lt _ _ _ Hi))
      as [hand Hhand].
    exists hand. by rewrite Hhand.
Qed.

(** X8. The list [findPosition] builds for a hand has one entry per
    landmark, in the provider's order, and entry [k] is
    [[k, int(x * w), int(y * h)]]: the first slot of an entry is its own
    index. *)
Theorem positions_entries (hand : list (NormalizedLandmark float)) :
  length (positions to_pixel img 0 hand) = length hand ∧
  ∀ k, positions to_pixel img 0 hand !! k
       = (λ lm, [Z.of_nat k; to_pixel (lm_x lm) (img_w img);
                 to_pixel (lm_y lm) (img_h img)]) <$> hand !! k.
Proof.
  assert (∀ (id : nat) k,
            positions to_pixel img (Z.of_nat id) hand !! k
            = (λ lm, [Z.of_nat (id + k); to_pixel (lm_x lm) (img_w img);
                      to_pixel (lm_y lm) (img_h img)]) <$> hand !! k) as Hk.
  { induction hand as [|lm hand' IH]; intros id k; [done|].
    cbn [positions]. destruct k as [|k]; cbn.
    - by rewrite Nat.add_0_r.
    - replace (Z.of_nat id + 1) with (Z.of_nat (S id)) by lia.
      rewrite IH. by replace (S id + k)%nat with (id + S k)%nat by lia. }
  split; [|exact (Hk 0%nat)]. clear Hk.
  generalize 0. induction hand as [|lm hand' IH]; intros id; cbn; [done|].
  by rewrite IH.
Qed.

(** X9. What [getHandType] answers: before [findHands] has run it raises
    [AttributeError]; it returns [None] exactly when the provider gave no
    handedness list (or an empty one); otherwise it returns the label of
    the first classification of the hand [handIndex] picks, and raises
    [IndexError] when the index is outside the list or the hand has no
    classification. *)
Theorem getHandType_outcome (handIndex : Z) :
  (results self = None → getHandType self handIndex = Raise AttributeError) ∧
  (∀ r, results self = Some r →
     (getHandType self handIndex = Ok None ↔
      truthy_list (multi_handedness r) = false) ∧
     (truthy_list (multi_handedness r) = true →
      getHandType self handIndex =
        match resolve (length (default [] (multi_handedness r))) handIndex with
        | Some i =>
            match default [] (multi_handedness r) !! i with
            | Some (c :: _) => Ok (Some (label c))
            | _ => Raise IndexError
            end
        | None => Raise IndexError
        end)).
Proof.
  unfold getHandType, get_results. split.
  - by intros ->.
  - intros r ->. cbn.
    destruct (multi_handedness r) as [[|h0 hs]|]; cbn [truthy_list]; try done.
    cbn [default from_option id]. rewrite getitem_resolve.
    destruct (resolve (length (h0 :: hs)) handIndex) as [i|] eqn:Hi.
    + destruct ((h0 :: hs) !! i) as [[|c cs]|]; cbn; by split.
    + by split.
Qed.

End Lookups.

(** ** More on the loop of [main] *)

Lemma py_count_bounds (l : list Z) (x : Z) :
  0 ≤ py_count l x ≤ Z.of_nat (length l).
Proof.
  unfold py_count. pose proof (count_occ_bound Z.eq_dec x l). lia.
Qed.

Lemma count_frame_tipIds {float} (to_pixel : float → Z → Z)
    (a b : handDetector float) (img : image) :
  tipIds a = tipIds b → results a = results b →
  count_frame to_pixel a img = count_frame to_pixel b img.
Proof.
  destruct a, b. cbn. intros -> ->. reflexivity.
Qed.

Lemma main_loop_tipIds {float} (to_pixel : float → Z → Z)
    (a b : handDetector float) (frames : list (frame float)) :
  tipIds a = tipIds b →
  main_loop to_pixel a frames = main_loop to_pixel b frames.
Proof.
  revert a b. induction frames as [|f frames IH]; intros a b Htip; [done|].
  cbn [main_loop].
  rewrite (count_frame_tipIds to_pixel (findHands a (frame_hands f))
             (findHands b (frame_hands f))) by done.
  destruct (count_frame _ _ _); [|done].
  by rewrite (IH (findHands a (frame_hands f)) (findHands b (frame_hands f))).
Qed.

Section Loop.

Context {float : Type} (to_pixel : float → Z → Z).



Section Bounds.

Context (detector : handDetector float) (img : image).
Hypothesis Hdet : constructed detector.

Lemma count_hand_bounds (i total total' : Z) :
  count_hand to_pixel detector img i total = Ok total' →
  total ≤ total' ≤ total + 5.
Proof.
  unfold count_hand.
  destruct (findPosition _ _ _ _) as [lmList|]; [|done]. cbn.
  destruct (getHandType _ _) as [handType|]; [|done]. cbn.
  destruct (truthy_label handType); [|intros [= <-]; lia].
  destruct (fingersUp _ _ _) as [v|] eqn:Hv; [|done]. cbn.
  intros [= <-].
  pose proof (py_count_bounds v 1) as Hb.
  rewrite (fingersUp_Ok_length detector Hdet _ _ _ Hv) in Hb. lia.
Qed.

Lemma count_hands_bounds (xs : list Z) (total total' : Z) :
  for_each xs (count_hand to_pixel detector img) total = Ok total' →
  total ≤ total' ≤ total + 5 * Z.of_nat (length xs).
Proof.
  revert total. induction xs as [|i xs IH]; intros total; cbn [for_each].
  - intros [= <-]. cbn. lia.
  - destruct (count_hand _ _ _ _ _) as [t1|] eqn:H1; [|done]. cbn.
    intros Hrest. apply IH in Hrest. apply count_hand_bounds in H1.
    cbn [length]. lia.
Qed.

(** X12. The number shown for a frame is never negative and never more
    than five times the number of hands the provider found. *)
Theorem count_frame_bounds (r : mp_results float) (total : Z) :
  results detector = Some r →
  count_frame to_pixel detector img = Ok total →
  0 ≤ total ≤ 5 * Z.of_nat (length (detected r)).
Proof.
  intros Hres. unfold count_frame, get_results. rewrite Hres. cbn.
  destruct (truthy_list (multi_hand_landmarks r)).
  - intros Hloop. apply count_hands_bounds in Hloop.
    unfold indices in Hloop. rewrite length_fmap, length_seq in Hloop.
    unfold detected. lia.
  - intros [= <-]. lia.
Qed.

End Bounds.

(** X13. A hand whose label is not empty and is not "Right" ("left",
    "Unknown", ...) is counted as a left hand. *)
Theorem count_hand_other_label (detector : handDetector float) (img : image)
    (handIndex total : Z) (lmList : list (list Z)) (s : string) :
  findPosition to_pixel detector img handIndex = Ok lmList →
  getHandType detector handIndex = Ok (Some s) →
  s ≠ ""%string → s ≠ "Right"%string →
  count_hand to_pixel detector img handIndex total
    = (v ← fingersUp detector lmList (VStr "Left");
       Ok (total + true_entries v)).
Proof.
  intros Hpos Hty Hne Hnr. unfold count_hand.
  rewrite Hpos. cbn [mbind result_bind].
  rewrite Hty. cbn [mbind result_bind truthy_label label_val].
  rewrite bool_decide_eq_false_2 by done. cbn [negb].
  assert (fingersUp detector lmList (VStr s)
          = fingersUp detector lmList (VStr "Left")) as ->; [|done].
  unfold fingersUp. cbn [py_eq_str].
  rewrite bool_decide_eq_false_2 by done.
  by rewrite (bool_decide_eq_false_2 ("Left"%string = "Right"%string)).
Qed.

(** X15. The loop keeps nothing from one frame to the next: the numbers
    shown for a sequence of frames are those for its first part followed
    by those for the rest, counted as if the loop had just started; and
    once a frame has raised, no later frame is looked at. *)
Theorem main_loop_app (detector : handDetector float)
    (frames1 frames2 : list (frame float)) :
  main_loop to_pixel detector (frames1 ++ frames2) =
    match main_loop to_pixel detector frames1 with
    | (shown1, None) =>
        let '(shown2, stopped) := main_loop to_pixel detector frames2 in
        (shown1 ++ shown2, stopped)
    | (shown1, Some e) => (shown1, Some e)
    end.
Proof.
  revert detector. induction frames1 as [|f frames1 IH]; intros detector.
  - cbn. by destruct (main_loop _ _ frames2).
  - cbn [app main_loop].
    destruct (count_frame _ _ _) as [total|e]; [|done].
    rewrite (IH (findHands detector (frame_hands f))).
    destruct (main_loop _ _ frames1) as [shown1 [e|]]; [done|].
    rewrite (main_loop_tipIds to_pixel (findHands detector (frame_hands f))
               detector frames2) by done.
    by destruct (main_loop _ _ frames2).
Qed.

End Loop.

(** ** The theorems at concrete hands and frames *)

(** A literal list of 21 entries [[id, cx, cy]] is a hand observation. *)
Ltac observed := split; [reflexivity | repeat constructor].

Lemma fingersUp_thumb_rule_witness :
  constructed detector0 ∧ hand_observation open_hand ∧
  ∃ xt xr,
    coord open_hand 4 1 = Some xt ∧ coord open_hand 3 1 = Some xr ∧
    (∃ v, fingersUp detector0 open_hand (VStr "Right") = Ok v ∧
          entry_iff v 0 (xt < xr)) ∧
    (∃ v, fingersUp detector0 open_hand (VStr "Left") = Ok v ∧
          entry_iff v 0 (xt > xr)).
Proof.
  split; [reflexivity|]. split; [observed|].
  apply (fingersUp_thumb_rule detector0); [reflexivity | observed].
Defined.

Lemma fingersUp_other_fingers_witness :
  constructed detector0 ∧ hand_observation open_hand ∧
  ∃ v, fingersUp detector0 open_hand (VStr (hand_label Right)) = Ok v ∧
    (∀ f, f ≠ Thumb →
       ∃ yt yr, coord open_hand (tip f) 2 = Some yt ∧
                coord open_hand (joint f) 2 = Some yr ∧
                entry_iff v (position f) (yt < yr)) ∧
    (∀ h' v', fingersUp detector0 open_hand (VStr (hand_label h')) = Ok v' →
       drop 1 v' = drop 1 v) ∧
    ((∀ f yt yr, f ≠ Thumb → coord open_hand (tip f) 2 = Some yt →
        coord open_hand (joint f) 2 = Some yr → yt < yr) →
     drop 1 v = [1; 1; 1; 1]).
Proof.
  split; [reflexivity|]. split; [observed|].
  apply (fingersUp_other_fingers detector0); [reflexivity | observed].
Defined.



(** C4 as stated fails: on the example hand the thumb entry is 0, and
    the hand counts 2, not 3. *)
Lemma example_thumb_is_down :
  coord example_hand 4 1 = Some 300 ∧ coord example_hand 3 1 = Some 250 ∧
  coord example_hand 8 2 = Some 120 ∧ coord example_hand 6 2 = Some 200 ∧
  coord example_hand 12 2 = Some 210 ∧ coord example_hand 10 2 = Some 180 ∧
  coord example_hand 16 2 = Some 300 ∧ coord example_hand 14 2 = Some 150 ∧
  coord example_hand 20 2 = Some 50 ∧ coord example_hand 18 2 = Some 300 ∧
  fingersUp detector0 example_hand (VStr "Right") ≠ Ok [1; 1; 0; 0; 1] ∧
  ∀ v, fingersUp detector0 example_hand (VStr "Right") = Ok v →
       true_entries v ≠ 3.
Proof.
  split_and!; try reflexivity.
  - intros H. vm_compute in H. discriminate H.
  - intros v H. vm_compute in H. injection H as <-. by vm_compute.
Qed.

Lemma fingersUp_example_witness :
  constructed detector0 ∧
  coord example_hand 4 1 = Some 300 ∧ coord example_hand 3 1 = Some 250 ∧
  coord example_hand 8 2 = Some 120 ∧ coord example_hand 6 2 = Some 200 ∧
  coord example_hand 12 2 = Some 210 ∧ coord example_hand 10 2 = Some 180 ∧
  coord example_hand 16 2 = Some 300 ∧ coord example_hand 14 2 = Some 150 ∧
  coord example_hand 20 2 = Some 50 ∧ coord example_hand 18 2 = Some 300 ∧
  fingersUp detector0 example_hand (VStr "Right") = Ok [0; 1; 0; 0; 1] ∧
  true_entries [0; 1; 0; 0; 1] = 2.
Proof.
  split; [reflexivity|]. do 10 (split; [reflexivity|]).
  apply (fingersUp_example detector0); reflexivity.
Defined.

Lemma fingersUp_tie_is_down_witness :
  constructed detector0 ∧ hand_observation level_hand ∧
  coord level_hand (tip Thumb) (axis Thumb)
    = coord level_hand (joint Thumb) (axis Thumb) ∧
  ∃ v, fingersUp detector0 level_hand (VStr "Left") = Ok v ∧
       v !! position Thumb = Some 0.
Proof.
  split; [reflexivity|]. split; [observed|]. split; [reflexivity|].
  apply (fingersUp_tie_is_down detector0); [reflexivity | observed | reflexivity].
Defined.

Lemma fingersUp_vector_shape_witness :
  constructed detector0 ∧ hand_observation example_hand ∧
  ∃ v, fingersUp detector0 example_hand (VStr (hand_label Left)) = Ok v ∧
       length v = 5%nat ∧
       Some <$> v = extended example_hand Left <$> fingers_in_order.
Proof.
  split; [reflexivity|]. split; [observed|].
  apply (proj2 (fingersUp_vector_shape detector0 eq_refl)). observed.
Defined.

(** C9 as stated fails: an object that is not the string "Right" but
    answers true when compared with it is read by the right-hand rule,
    and one whose comparison raises gets no vector at all. *)
Lemma custom_eq_is_not_Left :
  hand_observation open_hand ∧
  agrees_with_all ≠ Plain (VStr "Right") ∧
  refuses_to_compare ≠ Plain (VStr "Right") ∧
  fingersUp_any detector0 open_hand (Plain (VStr "Left"))
    = Ok [0; 1; 1; 1; 1] ∧
  fingersUp_any detector0 open_hand agrees_with_all = Ok [1; 1; 1; 1; 1] ∧
  fingersUp_any detector0 open_hand refuses_to_compare = Raise TypeError ∧
  ¬ (∀ handType, handType ≠ Plain (VStr "Right") →
       fingersUp_any detector0 open_hand handType
         = fingersUp_any detector0 open_hand (Plain (VStr "Left"))).
Proof.
  split; [observed|]. split; [discriminate|]. split; [discriminate|].
  split; [reflexivity|]. split; [reflexivity|]. split; [reflexivity|].
  intros Hall. specialize (Hall agrees_with_all ltac:(discriminate)).
  vm_compute in Hall. discriminate Hall.
Qed.

Lemma fingersUp_any_handType_witness :
  constructed detector0 ∧ hand_observation open_hand ∧
  py_eq (Plain (VStr "left")) "Right" = Ok false ∧
  ∃ v xt xr,
    fingersUp_any detector0 open_hand (Plain (VStr "left")) = Ok v ∧
    length v = 5%nat ∧
    coord open_hand 4 1 = Some xt ∧ coord open_hand 3 1 = Some xr ∧
    entry_iff v 0 (xt > xr) ∧
    fingersUp_any detector0 open_hand (Plain (VStr "Left")) = Ok v.
Proof.
  split; [reflexivity|]. split; [observed|]. split; [reflexivity|].
  apply (proj1 (fingersUp_any_handType detector0 eq_refl open_hand
                  (Plain (VStr "left")) ltac:(observed))).
  reflexivity.
Defined.

Lemma fingersUp_reads_only_witness :
  constructed detector0 ∧
  (21 ≤ length open_hand)%nat ∧ (21 ≤ length open_hand_moved)%nat ∧
  open_hand ≠ open_hand_moved ∧
  (∀ f, coord open_hand (tip f) (axis f)
          = coord open_hand_moved (tip f) (axis f) ∧
        coord open_hand (joint f) (axis f)
          = coord open_hand_moved (joint f) (axis f)) ∧
  fingersUp detector0 open_hand (VStr "Right")
    = fingersUp detector0 open_hand_moved (VStr "Right").
Proof.
  split; [reflexivity|].
  split; [vm_compute; lia|]. split; [vm_compute; lia|].
  split; [discriminate|].
  split; [by intros []|].
  apply (proj1 (fingersUp_reads_only detector0 eq_refl (VStr "Right")));
    [vm_compute; lia | vm_compute; lia | by intros []].
Defined.

(** ** Frames *)

Lemma well_formed_two_hands : well_formed two_hands_results.
Proof.
  split.
  - repeat constructor.
  - intros _ [|[|i]] Hi; [by eexists _, _ | by eexists _, _ |].
    cbn in Hi. lia.
Qed.

Lemma well_formed_unlabelled : well_formed unlabelled_results.
Proof. split; [repeat constructor | done]. Qed.

(** C7 as stated fails on a hand without label: the open hand has a
    finger-state vector with four 1 entries, and the frame counts 0. *)
Lemma unlabelled_hand_not_counted :
  let detector := findHands detector0 unlabelled_results in
  well_formed unlabelled_results ∧
  count_frame exact_pixel detector img512 = Ok 0 ∧
  ¬ sums_vectors exact_pixel detector img512
      (all_hands unlabelled_results)
      (count_frame exact_pixel detector img512).
Proof.
  intros detector. split; [exact well_formed_unlabelled|].
  split; [by vm_compute|].
  intros (vs & Hvs & Htot).
  change (all_hands unlabelled_results)
    with [(landmark_of <$> open_hand, @None string)] in Hvs.
  inversion Hvs as [|hl v hls vs' Hv Hrest]; subst.
  inversion Hrest; subst.
  vm_compute in Hv. injection Hv as <-.
  vm_compute in Htot. discriminate Htot.
Qed.

Lemma count_frame_total_witness :
  let detector := findHands detector0 two_hands_results in
  constructed detector ∧
  results detector = Some two_hands_results ∧
  well_formed two_hands_results ∧
  sums_vectors exact_pixel detector img512 (known_hands two_hands_results)
    (count_frame exact_pixel detector img512) ∧
  count_frame exact_pixel detector img512 = Ok 8 ∧
  main exact_pixel (Qmake 1 2) two_frames = ([8; 0], None).
Proof.
  intros detector.
  split; [reflexivity|]. split; [reflexivity|].
  split; [exact well_formed_two_hands|].
  split; [|split; by vm_compute].
  apply (proj1 (proj2 (count_frame_total exact_pixel detector eq_refl)));
    [reflexivity | exact well_formed_two_hands].
Defined.

(** ** The object store *)

Lemma holds_open_hand :
  Store.holds (Store.heap_of open_hand) 1%positive 3%positive
    detector0 open_hand.
Proof.
  eexists _, _, _. split_and!.
  - by vm_compute.
  - by vm_compute.
  - by vm_compute.
  - by vm_compute.
  - repeat (constructor; [by vm_compute|]). constructor.
Qed.

Lemma fingersUp_pure_on_store_witness :
  let σ := Store.heap_of open_hand in
  let out1 := Store.fingersUp 1%positive 3%positive (VStr "Right") σ in
  let out2 := Store.fingersUp 1%positive 3%positive (VStr "Right") out1.2 in
  constructed detector0 ∧
  Store.holds σ 1%positive 3%positive detector0 open_hand ∧
  Store.untouched σ out1.2 ∧ Store.untouched out1.2 out2.2 ∧
  Store.holds out2.2 1%positive 3%positive detector0 open_hand ∧
  (∀ l, out1.1 = Ok l → σ !! l = None) ∧
  Store.returned out1 = fingersUp detector0 open_hand (VStr "Right") ∧
  Store.returned out2 = Store.returned out1.
Proof.
  intros σ out1 out2.
  split; [reflexivity|]. split; [exact holds_open_hand|].
  apply (fingersUp_pure_on_store detector0 open_hand σ);
    [reflexivity | exact holds_open_hand].
Defined.

(** ** The further theorems at concrete hands and frames *)

Lemma fingersUp_returns_iff_witness :
  constructed detector0 ∧
  ((∃ v, fingersUp detector0 open_hand (VStr "Right") = Ok v)
   ↔ all_read open_hand) ∧
  (∀ e, fingersUp detector0 open_hand (VStr "Right") = Raise e →
        e = IndexError).
Proof.
  split; [reflexivity|].
  apply (fingersUp_returns_iff detector0). reflexivity.
Defined.

Lemma fingersUp_short_list_witness :
  constructed detector0 ∧ (length (take 5 open_hand) < 21)%nat ∧
  fingersUp detector0 (take 5 open_hand) (VStr "Left") = Raise IndexError.
Proof.
  split; [reflexivity|]. split; [vm_compute; lia|].
  apply (fingersUp_short_list detector0); [reflexivity | vm_compute; lia].
Defined.

Lemma fingersUp_bits_witness :
  constructed detector0 ∧
  fingersUp detector0 example_hand (VStr "Left") = Ok [1; 1; 0; 0; 1] ∧
  Forall (λ b, b = 0 ∨ b = 1) [1; 1; 0; 0; 1] ∧
  0 ≤ true_entries [1; 1; 0; 0; 1] ≤ 5.
Proof.
  split; [reflexivity|]. split; [reflexivity|].
  apply (fingersUp_bits detector0 eq_refl example_hand (VStr "Left")).
  reflexivity.
Defined.

Lemma fingersUp_labels_differ_on_thumb_witness :
  constructed detector0 ∧
  fingersUp detector0 example_hand (VStr "Right") = Ok [0; 1; 0; 0; 1] ∧
  fingersUp detector0 example_hand (VStr "Left") = Ok [1; 1; 0; 0; 1] ∧
  ∃ xt xr tr tl rest,
    coord example_hand 4 1 = Some xt ∧ coord example_hand 3 1 = Some xr ∧
    [0; 1; 0; 0; 1] = tr :: rest ∧ [1; 1; 0; 0; 1] = tl :: rest ∧
    (xt = xr → tr = 0 ∧ tl = 0) ∧
    (xt ≠ xr → tr + tl = 1) ∧
    true_entries [0; 1; 0; 0; 1] - true_entries [1; 1; 0; 0; 1] = tr - tl.
Proof.
  split; [reflexivity|]. split; [reflexivity|]. split; [reflexivity|].
  apply (fingersUp_labels_differ_on_thumb detector0 eq_refl example_hand);
    reflexivity.
Defined.

Lemma fingersUp_moved_hand_witness :
  constructed detector0 ∧ 0 < 2 ∧ 0 < 3 ∧
  fingersUp detector0 (transform 2 (-40) 3 15 <$> example_hand) (VStr "Right")
    = fingersUp detector0 example_hand (VStr "Right").
Proof.
  split; [reflexivity|]. split; [lia|]. split; [lia|].
  apply (fingersUp_moved_hand detector0); [reflexivity | lia | lia].
Defined.

Lemma fingersUp_mirrored_hand_witness :
  constructed detector0 ∧ -1 < 0 ∧ 0 < 1 ∧
  fingersUp detector0 (transform (-1) 511 1 0 <$> open_hand) (VStr "Right")
    = fingersUp detector0 open_hand (VStr "Left") ∧
  fingersUp detector0 (transform (-1) 511 1 0 <$> open_hand) (VStr "Left")
    = fingersUp detector0 open_hand (VStr "Right").
Proof.
  split; [reflexivity|]. split; [lia|]. split; [lia|].
  apply (fingersUp_mirrored_hand detector0); [reflexivity | lia | lia].
Defined.

Lemma findPosition_outcome_witness :
  let seen := findHands detector0 two_hands_results in
  findPosition exact_pixel detector0 img512 0 = Raise AttributeError ∧
  findPosition exact_pixel (findHands detector0 no_hands_results) img512 7
    = Ok [] ∧
  findPosition exact_pixel seen img512 (-1) = Ok example_hand ∧
  findPosition exact_pixel seen img512 2 = Raise IndexError.
Proof.
  intros seen. split_and!.
  - apply (proj1 (findPosition_outcome exact_pixel detector0 img512 0)).
    reflexivity.
  - apply (proj1 (proj2 (findPosition_outcome exact_pixel
                           (findHands detector0 no_hands_results) img512 7))
             no_hands_results); reflexivity.
  - destruct (proj2 (proj2 (findPosition_outcome exact_pixel seen img512 (-1)))
                two_hands_results eq_refl) as (hand & Hhand & ->);
      [discriminate|].
    vm_compute in Hhand. injection Hhand as <-. by vm_compute.
  - apply (proj2 (proj2 (findPosition_outcome exact_pixel seen img512 2))
             two_hands_results eq_refl). discriminate.
Defined.

Lemma getHandType_outcome_witness :
  let seen := findHands detector0 two_hands_results in
  getHandType detector0 0 = Raise AttributeError ∧
  (getHandType (findHands detector0 unlabelled_results) 0 = Ok None ↔
   truthy_list (multi_handedness unlabelled_results) = false) ∧
  getHandType seen 1 = Ok (Some "Left"%string) ∧
  getHandType seen 2 = Raise IndexError.
Proof.
  intros seen. split_and!.
  - apply (proj1 (getHandType_outcome detector0 0)). reflexivity.
  - apply (proj2 (getHandType_outcome
                    (findHands detector0 unlabelled_results) 0)
             unlabelled_results eq_refl).
  - apply (proj2 (proj2 (getHandType_outcome seen 1) two_hands_results
                    eq_refl) eq_refl).
  - apply (proj2 (proj2 (getHandType_outcome seen 2) two_hands_results
                    eq_refl) eq_refl).
Defined.


Lemma count_frame_bounds_witness :
  let seen := findHands detector0 two_hands_results in
  constructed seen ∧ results seen = Some two_hands_results ∧
  count_frame exact_pixel seen img512 = Ok 8 ∧
  0 ≤ 8 ≤ 5 * Z.of_nat (length (detected two_hands_results)).
Proof.
  intros seen. split; [reflexivity|]. split; [reflexivity|].
  split; [by vm_compute|].
  apply (count_frame_bounds exact_pixel seen img512 eq_refl);
    [reflexivity | by vm_compute].
Defined.

Lemma count_hand_other_label_witness :
  let seen := findHands detector0 lowercase_results in
  findPosition exact_pixel seen img512 0 = Ok open_hand ∧
  getHandType seen 0 = Ok (Some "left"%string) ∧
  "left"%string ≠ ""%string ∧ "left"%string ≠ "Right"%string ∧
  count_hand exact_pixel seen img512 0 0
    = (v ← fingersUp seen open_hand (VStr "Left");
       Ok (0 + true_entries v)).
Proof.
  intros seen. split; [by vm_compute|]. split; [reflexivity|].
  split; [discriminate|]. split; [discriminate|].
  apply (count_hand_other_label exact_pixel seen img512 0 0 open_hand "left");
    [by vm_compute | reflexivity | discriminate | discriminate].
Defined.
